(** * The SQLCipher header VFS shim (src/crypto_vfs.c)

    A shallow embedding of the file-header shim: the on-disk header codec
    (sqlcipherVfsReadHeader / sqlcipherVfsWriteHeader), the four
    offset-translating file methods (read, write, truncate, file size), the
    open hook and the registration entry point, followed by the properties
    the specification states about them. *)

From Stdlib Require Import String ZArith List Lia Bool Permutation.
From coqutil Require Import Byte Z.bitblast.
Import ListNotations.
Local Open Scope Z_scope.

(** ** Machine integers

    The C code mixes [u32] (header fields), [int] (amounts, sector size) and
    [sqlite3_int64] (file offsets and sizes).  Values are kept in [Z]; every
    conversion the C code performs is written out. *)

Definition is_u32 (z : Z) : Prop := 0 <= z < 2 ^ 32.
Definition is_int (z : Z) : Prop := - 2 ^ 31 <= z < 2 ^ 31.
Definition is_i64 (z : Z) : Prop := - 2 ^ 63 <= z < 2 ^ 63.

(** [int] to [u32]: reduction modulo 2^32. *)
Definition u32_of_int (z : Z) : Z := z mod 2 ^ 32.

(** [u32] to [int]: values above INT_MAX come out negative. *)
Definition int_of_u32 (z : Z) : Z := if z <? 2 ^ 31 then z else z - 2 ^ 32.

(** [sqlite3_int64] addition and subtraction, two's complement. *)
Definition wrap_i64 (z : Z) : Z := (z + 2 ^ 63) mod 2 ^ 64 - 2 ^ 63.
Definition add_i64 (a b : Z) : Z := wrap_i64 (a + b).
Definition sub_i64 (a b : Z) : Z := wrap_i64 (a - b).

(** Result codes of sqlite3.h used by the shim and by the files under it. *)
Definition SQLITE_OK : Z := 0.
Definition SQLITE_NOMEM : Z := 7.
Definition SQLITE_IOERR : Z := 10.
Definition SQLITE_NOTFOUND : Z := 12.
Definition SQLITE_IOERR_SHORT_READ : Z := Z.lor SQLITE_IOERR (Z.shiftl 2 8).
Definition SQLITE_IOERR_WRITE : Z := Z.lor SQLITE_IOERR (Z.shiftl 3 8).

(** ** Executions that may hit undefined behaviour

    A C execution either returns, or runs into one of the faults the shim
    can reach: an access outside an allocated buffer, a call through a NULL
    method table, or a store through the NULL result of a failed
    allocation. *)

Inductive fault : Type :=
| BufferOverrun
| NullMethods
| NullAlloc.

Inductive exec (A : Type) : Type :=
| Ret (a : A)
| Crash (f : fault).
Arguments Ret {A} a.
Arguments Crash {A} f.

Definition bind {A B : Type} (c : exec A) (k : A -> exec B) : exec B :=
  match c with
  | Ret a => k a
  | Crash f => Crash f
  end.

Notation "x <- c ;; k" := (bind c (fun x => k))
  (at level 61, c at next level, right associativity).

(** ** Byte buffers with checked accesses *)

Definition buffer : Type := list byte.

(** Modelled from the spec: sqlcipher_malloc (not in src/) hands out a
    zero-filled buffer of the requested length; the header's padding is
    "zero-filled". *)
Definition sqlcipher_malloc (sz : Z) : buffer := repeat Byte.x00 (Z.to_nat sz).

Definition in_bounds (p : buffer) (off n : Z) : bool :=
  (0 <=? off) && (0 <=? n) && (off + n <=? Z.of_nat (length p)).

Definition load (p : buffer) (off : Z) : byte := nth (Z.to_nat off) p Byte.x00.

(** Overwrite [length bs] bytes of [p] from offset [off] on. *)
Definition splice (p : buffer) (off : Z) (bs : list byte) : buffer :=
  firstn (Z.to_nat off) p ++ bs ++ skipn (Z.to_nat off + length bs) p.

(** The four bytes of a 32-bit value, most significant first. *)
Definition be32 (v : Z) : list byte :=
  [ byte.of_Z (Z.shiftr v 24); byte.of_Z (Z.shiftr v 16);
    byte.of_Z (Z.shiftr v 8); byte.of_Z v ].

(** Modelled from the spec: sqlite3Get4byte (not in src/) reads a big-endian
    unsigned 32-bit integer from four bytes. *)
Definition sqlite3Get4byte (p : buffer) (off : Z) : exec Z :=
  if in_bounds p off 4 then
    Ret (Z.lor (Z.lor (Z.lor (Z.shiftl (byte.unsigned (load p off)) 24)
                             (Z.shiftl (byte.unsigned (load p (off + 1))) 16))
                      (Z.shiftl (byte.unsigned (load p (off + 2))) 8))
               (byte.unsigned (load p (off + 3))))
  else Crash BufferOverrun.

(** Modelled from the spec: sqlite3Put4byte (not in src/) stores a big-endian
    unsigned 32-bit integer into four bytes. *)
Definition sqlite3Put4byte (p : buffer) (off : Z) (v : Z) : exec buffer :=
  if in_bounds p off 4 then Ret (splice p off (be32 v)) else Crash BufferOverrun.

Definition memcpy (dst : buffer) (src : list byte) (n : Z) : exec buffer :=
  if in_bounds dst 0 n then Ret (splice dst 0 (firstn (Z.to_nat n) src))
  else Crash BufferOverrun.

Definition byte_eqb (a b : byte) : bool := Byte.eqb a b.

Fixpoint bytes_eqb (a b : list byte) : bool :=
  match a, b with
  | [], [] => true
  | x :: a', y :: b' => byte_eqb x y && bytes_eqb a' b'
  | _, _ => false
  end.

(** [memcmp(a, b, n) == 0] *)
Definition memcmp_eq (a b : list byte) (n : Z) : bool :=
  bytes_eqb (firstn (Z.to_nat n) a) (firstn (Z.to_nat n) b).

(** What an underlying read leaves in a caller's buffer: the delivered bytes
    lie over the start of the buffer, whose allocated length does not
    change. *)
Definition read_into (buf : buffer) (got : list byte) : buffer :=
  firstn (length buf) (got ++ skipn (length got) buf).

(** ** The header *)

Definition sqlcipherMagic : list byte :=
  [ Byte.xb0; Byte.x08; Byte.xa6; Byte.x79; Byte.x75; Byte.x7e; Byte.x3e; Byte.x9e;
    Byte.xf3; Byte.x00; Byte.x58; Byte.xdd; Byte.xb8; Byte.x9d; Byte.xe2; Byte.x3b;
    Byte.x7d; Byte.x92; Byte.xda; Byte.xaf; Byte.xe0; Byte.x11; Byte.x0a; Byte.x5f;
    Byte.x05; Byte.x76; Byte.x4a; Byte.xf6; Byte.xed; Byte.x9d; Byte.xe4; Byte.x84 ].

Definition SQLCIPHER_MAGIC_SZ : Z := 32.

(** [SQLCIPHER_MAGIC_SZ + sizeof(u32)] *)
Definition SQLCIPHER_MIN_HDR_SZ : Z := SQLCIPHER_MAGIC_SZ + 4.

(** The documented header format ends at offset 52 + 4. *)
Definition SQLCIPHER_FULL_HDR_SZ : Z := 56.

(** ** The file under the shim

    [sqlite3_io_methods] restricted to the entry points the header logic
    calls.  Every call may change the underlying file's state [F].  [xRead]
    returns the status and the bytes it delivered, [xFileSize] the status
    and the value left in [*pSize]. *)

Record sqlite3_io_methods (F : Type) : Type := {
  xRead : F -> Z -> Z -> Z * list byte * F;
  xWrite : F -> buffer -> Z -> Z -> Z * F;
  xTruncate : F -> Z -> Z * F;
  xFileSize : F -> Z * Z * F;
  xSectorSize : F -> Z * F
}.
Arguments xRead {F} _ _ _ _.
Arguments xWrite {F} _ _ _ _ _.
Arguments xTruncate {F} _ _ _.
Arguments xFileSize {F} _ _.
Arguments xSectorSize {F} _ _.

(** The shim's per-file state (struct sqlcipherVfs_file, declared in
    sqlcipher.h): the underlying file, three flags and the header fields,
    which are [u32]. *)
Record sqlcipherVfs_file (F : Type) : Type := {
  pReal : F;
  use_header : bool;
  needs_write : bool;
  did_read : bool;
  reserve_sz : Z;
  version : Z;
  page_sz : Z;
  kdf_iter : Z;
  fast_kdf_iter : Z;
  flags : Z
}.
Arguments pReal {F} _.
Arguments use_header {F} _.
Arguments needs_write {F} _.
Arguments did_read {F} _.
Arguments reserve_sz {F} _.
Arguments version {F} _.
Arguments page_sz {F} _.
Arguments kdf_iter {F} _.
Arguments fast_kdf_iter {F} _.
Arguments flags {F} _.

Section Shim.
Context {F : Type}.
Variable M : sqlite3_io_methods F.

Local Abbreviation file := (sqlcipherVfs_file F).

Definition set_pReal (f : F) (p : file) : file :=
  {| pReal := f; use_header := use_header p; needs_write := needs_write p;
     did_read := did_read p; reserve_sz := reserve_sz p; version := version p;
     page_sz := page_sz p; kdf_iter := kdf_iter p;
     fast_kdf_iter := fast_kdf_iter p; flags := flags p |}.

Definition set_flags3 (u n d : bool) (p : file) : file :=
  {| pReal := pReal p; use_header := u; needs_write := n; did_read := d;
     reserve_sz := reserve_sz p; version := version p; page_sz := page_sz p;
     kdf_iter := kdf_iter p; fast_kdf_iter := fast_kdf_iter p; flags := flags p |}.

Definition set_needs_write (n : bool) (p : file) : file :=
  set_flags3 (use_header p) n (did_read p) p.

Definition set_reserve_sz (r : Z) (p : file) : file :=
  {| pReal := pReal p; use_header := use_header p; needs_write := needs_write p;
     did_read := did_read p; reserve_sz := r; version := version p;
     page_sz := page_sz p; kdf_iter := kdf_iter p;
     fast_kdf_iter := fast_kdf_iter p; flags := flags p |}.

Definition set_fields (v ps k fk fl : Z) (p : file) : file :=
  {| pReal := pReal p; use_header := use_header p; needs_write := needs_write p;
     did_read := did_read p; reserve_sz := reserve_sz p; version := v;
     page_sz := ps; kdf_iter := k; fast_kdf_iter := fk; flags := fl |}.

(** Lines 75-79 and 86 of sqlcipherVfsReadHeader: the five fields after
    the reserve size are loaded from the full header buffer, then
    [use_header] and [did_read] are set. *)
Definition unpack_header (p : file) (header : buffer) : exec file :=
  v <- sqlite3Get4byte header 36 ;;
  ps <- sqlite3Get4byte header 40 ;;
  k <- sqlite3Get4byte header 44 ;;
  fk <- sqlite3Get4byte header 48 ;;
  fl <- sqlite3Get4byte header 52 ;;
  Ret (set_flags3 true (needs_write p) true (set_fields v ps k fk fl p)).

(** sqlcipherVfsReadHeader: always returns SQLITE_OK. *)
Definition sqlcipherVfsReadHeader (p : file) : exec (Z * file) :=
  let p := set_flags3 false false false p in
  let magic := repeat Byte.x00 (Z.to_nat SQLCIPHER_MIN_HDR_SZ) in
  let '(rc, got, f1) := xRead M (pReal p) SQLCIPHER_MIN_HDR_SZ 0 in
  let magic := read_into magic got in
  let p := set_pReal f1 p in
  if rc =? SQLITE_OK then
    if memcmp_eq magic sqlcipherMagic SQLCIPHER_MAGIC_SZ then
      r <- sqlite3Get4byte magic 32 ;;
      let p := set_reserve_sz r p in
      let header := sqlcipher_malloc (reserve_sz p) in
      let '(rc2, got2, f2) := xRead M (pReal p) (int_of_u32 (reserve_sz p)) 0 in
      let header := read_into header got2 in
      let p := set_pReal f2 p in
      if rc2 =? SQLITE_OK then
        p <- unpack_header p header ;;
        Ret (SQLITE_OK, p)
      else Ret (SQLITE_OK, p)
    else Ret (SQLITE_OK, set_reserve_sz 0 p)
  else
    let '(rc3, fsize, f3) := xFileSize M (pReal p) in
    let p := set_pReal f3 p in
    if (rc3 =? SQLITE_OK) && (fsize =? 0) then
      let '(ss, f4) := xSectorSize M (pReal p) in
      let p := set_pReal f4 p in
      Ret (SQLITE_OK, set_needs_write true (set_reserve_sz (u32_of_int ss) p))
    else Ret (SQLITE_OK, p).

(** Lines 108-116 of sqlcipherVfsWriteHeader: the header image built in a
    freshly allocated buffer of [reserve_sz] bytes. *)
Definition pack_header (p : file) : exec buffer :=
  let header := sqlcipher_malloc (reserve_sz p) in
  header <- memcpy header sqlcipherMagic SQLCIPHER_MAGIC_SZ ;;
  header <- sqlite3Put4byte header 32 (reserve_sz p) ;;
  header <- sqlite3Put4byte header 36 (version p) ;;
  header <- sqlite3Put4byte header 40 (page_sz p) ;;
  header <- sqlite3Put4byte header 44 (kdf_iter p) ;;
  header <- sqlite3Put4byte header 48 (fast_kdf_iter p) ;;
  sqlite3Put4byte header 52 (flags p).

(** sqlcipherVfsWriteHeader: the status of the underlying write is only
    traced; the function always returns SQLITE_OK. *)
Definition sqlcipherVfsWriteHeader (p : file) : exec (Z * file) :=
  header <- pack_header p ;;
  let '(_, f1) := xWrite M (pReal p) header (int_of_u32 (reserve_sz p)) 0 in
  Ret (SQLITE_OK, set_pReal f1 p).

(** [p->use_header ? p->reserve_sz : 0] *)
Definition header_shift (p : file) : Z :=
  if use_header p then reserve_sz p else 0.

Definition sqlcipherVfsRead (p : file) (iAmt iOfst : Z) : Z * list byte * file :=
  let '(rc, got, f1) := xRead M (pReal p) iAmt (add_i64 iOfst (header_shift p)) in
  (rc, got, set_pReal f1 p).

(** The condition of line 154. *)
Definition header_write_due (p : file) (iOfst : Z) : bool :=
  use_header p && (SQLCIPHER_MIN_HDR_SZ <=? reserve_sz p) && (iOfst =? 0)
  && needs_write p.

Definition sqlcipherVfsWrite (p : file) (zBuf : buffer) (iAmt iOfst : Z)
  : exec (Z * file) :=
  p <- (if header_write_due p iOfst then
          r <- sqlcipherVfsWriteHeader p ;;
          Ret (set_needs_write false (snd r))
        else Ret p) ;;
  let '(rc, f1) := xWrite M (pReal p) zBuf iAmt (add_i64 iOfst (header_shift p)) in
  Ret (rc, set_pReal f1 p).

Definition sqlcipherVfsTruncate (p : file) (size : Z) : Z * file :=
  let '(rc, f1) := xTruncate M (pReal p) (add_i64 size (header_shift p)) in
  (rc, set_pReal f1 p).

(** Returns the status and the value stored in [*pSize]. *)
Definition sqlcipherVfsFileSize (p : file) : Z * Z * file :=
  let '(rc, rSize, f1) := xFileSize M (pReal p) in
  let pSize :=
    if use_header p then
      if reserve_sz p <=? rSize then sub_i64 rSize (reserve_sz p) else 0
    else rSize in
  (rc, pSize, set_pReal f1 p).

(** sqlcipherVfsOpen.  [opened] is what the root provider's xOpen gave:
    its status and, when it left a method table in the underlying file,
    that file.  [p] is the caller's storage for the handle.  When there is a
    method table, the shim's own table is allocated with sqlite3_malloc and
    cleared with memset without a check of the result: [malloc_ok] tells
    whether that allocation succeeds, and the memset goes through NULL when
    it does not.  The table's read, write, truncate and size entries are the
    four functions above; its other entries forward to the underlying file.
    Header detection then runs whatever the status; with no
    method table its first call goes through a NULL pointer. *)
Definition sqlcipherVfsOpen (malloc_ok : bool) (opened : Z * option F) (p : file)
  : exec (Z * file) :=
  let '(rc, real) := opened in
  match real with
  | Some f =>
      if malloc_ok then
        r <- sqlcipherVfsReadHeader (set_pReal f p) ;;
        Ret (rc, snd r)
      else Crash NullAlloc
  | None => Crash NullMethods
  end.

End Shim.

(** ** Observing the calls made on the underlying file

    [traced M] behaves as [M] and records every call, latest first, so that
    "delegates to", "invokes" and "performs no write" can be stated about
    the shim over any underlying file. *)

Inductive call : Type :=
| CallRead (iAmt iOfst : Z)
| CallWrite (zBuf : buffer) (iAmt iOfst : Z)
| CallTruncate (size : Z)
| CallFileSize
| CallSectorSize.

Definition traced {F : Type} (M : sqlite3_io_methods F)
  : sqlite3_io_methods (F * list call) :=
  {| xRead := fun s iAmt iOfst =>
       let '(rc, got, f) := xRead M (fst s) iAmt iOfst in
       (rc, got, (f, CallRead iAmt iOfst :: snd s));
     xWrite := fun s zBuf iAmt iOfst =>
       let '(rc, f) := xWrite M (fst s) zBuf iAmt iOfst in
       (rc, (f, CallWrite zBuf iAmt iOfst :: snd s));
     xTruncate := fun s size =>
       let '(rc, f) := xTruncate M (fst s) size in
       (rc, (f, CallTruncate size :: snd s));
     xFileSize := fun s =>
       let '(rc, sz, f) := xFileSize M (fst s) in
       (rc, sz, (f, CallFileSize :: snd s));
     xSectorSize := fun s =>
       let '(ss, f) := xSectorSize M (fst s) in
       (ss, (f, CallSectorSize :: snd s)) |}.

(** ** An in-memory underlying file

    A file as the sqlite3 VFS contract describes it: a byte sequence and a
    sector size.  A read past the end fails with SQLITE_IOERR_SHORT_READ
    after zero-filling the rest of the buffer; a write past the end extends
    the file with zeros.  [wfaults] schedules the outcome of the coming
    writes: a write takes the head of the list and fails with it, leaving
    the bytes alone, when it is not SQLITE_OK. *)

Record memfile : Type := {
  content : list byte;
  sector : Z;
  wfaults : list Z
}.

Definition mem_read (f : memfile) (iAmt iOfst : Z) : Z * list byte * memfile :=
  if (iAmt <? 0) || (iOfst <? 0) then (SQLITE_IOERR, [], f)
  else
    let got := firstn (Z.to_nat iAmt) (skipn (Z.to_nat iOfst) (content f)) in
    if (length got =? Z.to_nat iAmt)%nat then (SQLITE_OK, got, f)
    else (SQLITE_IOERR_SHORT_READ,
          got ++ repeat Byte.x00 (Z.to_nat iAmt - length got), f).

Definition mem_store (f : memfile) (zBuf : buffer) (iAmt iOfst : Z) (rest : list Z)
  : Z * memfile :=
  if (iAmt <? 0) || (iOfst <? 0) || (Z.of_nat (length zBuf) <? iAmt) then
    (SQLITE_IOERR_WRITE, {| content := content f; sector := sector f; wfaults := rest |})
  else
    let data := firstn (Z.to_nat iAmt) zBuf in
    let padded :=
      content f ++ repeat Byte.x00 (Z.to_nat (iOfst + iAmt) - length (content f)) in
    (SQLITE_OK,
     {| content := splice padded iOfst data; sector := sector f; wfaults := rest |}).

Definition mem_write (f : memfile) (zBuf : buffer) (iAmt iOfst : Z) : Z * memfile :=
  match wfaults f with
  | [] => mem_store f zBuf iAmt iOfst []
  | rc :: rest =>
      if rc =? SQLITE_OK then mem_store f zBuf iAmt iOfst rest
      else (rc, {| content := content f; sector := sector f; wfaults := rest |})
  end.

Definition mem_truncate (f : memfile) (size : Z) : Z * memfile :=
  if size <? 0 then (SQLITE_IOERR, f)
  else
    (SQLITE_OK,
     {| content := firstn (Z.to_nat size)
                     (content f ++ repeat Byte.x00 (Z.to_nat size - length (content f)));
        sector := sector f; wfaults := wfaults f |}).

Definition mem_methods : sqlite3_io_methods memfile :=
  {| xRead := mem_read;
     xWrite := mem_write;
     xTruncate := mem_truncate;
     xFileSize := fun f => (SQLITE_OK, Z.of_nat (length (content f)), f);
     xSectorSize := fun f => (sector f, f) |}.

(** Handle storage as sqlite3 passes it to xOpen: zeroed. *)
Definition blank_file {F : Type} (f : F) : sqlcipherVfs_file F :=
  {| pReal := f; use_header := false; needs_write := false; did_read := false;
     reserve_sz := 0; version := 0; page_sz := 0; kdf_iter := 0;
     fast_kdf_iter := 0; flags := 0 |}.

(** ** Registration

    The process-wide list of providers, its head the default one.  A
    provider is identified by its address, as the linked list of sqlite3
    compares pointers, and found by its name. *)

Inductive open_impl : Type :=
| RootOpen (owner : nat)
| ShimOpen.

(** struct sqlite3_vfs.  [xBase] names the provider whose xDelete ...
    xGetLastError entry points the object carries, [xCurrentTimeInt64] and
    [xSysCalls] likewise for the version 2 and version 3 entry points
    ([None] is a NULL pointer); [pAppData] is the address of the root
    provider kept in the shim's sqlcipherVfs_info. *)
Record sqlite3_vfs : Type := {
  vfs_addr : nat;
  iVersion : Z;
  szOsFile : Z;
  mxPathname : Z;
  zName : string;
  pAppData : option nat;
  xOpen : open_impl;
  xBase : option nat;
  xCurrentTimeInt64 : option nat;
  xSysCalls : option nat
}.

(** [malloc_left] is the number of allocations that will still succeed,
    [next_addr] the address the next one returns. *)
Record sqlite3_global : Type := {
  vfsList : list sqlite3_vfs;
  next_addr : nat;
  malloc_left : nat
}.

Definition sqlite3_malloc (g : sqlite3_global) : option nat * sqlite3_global :=
  match malloc_left g with
  | O => (None, g)
  | S n => (Some (next_addr g),
            {| vfsList := vfsList g; next_addr := S (next_addr g); malloc_left := n |})
  end.

(** Modelled from the spec: sqlite3_vfs_find (not in src/) looks a provider
    up by name among the registered ones; a NULL name stands for the default
    provider. *)
Definition sqlite3_vfs_find (g : sqlite3_global) (zVfs : option string)
  : option sqlite3_vfs :=
  match zVfs with
  | None => hd_error (vfsList g)
  | Some n => find (fun v => String.eqb n (zName v)) (vfsList g)
  end.

Fixpoint vfsUnlink (a : nat) (l : list sqlite3_vfs) : list sqlite3_vfs :=
  match l with
  | [] => []
  | v :: l' => if Nat.eqb (vfs_addr v) a then l' else v :: vfsUnlink a l'
  end.

(** Modelled from the spec: sqlite3_vfs_register (not in src/) installs a
    provider in the registry; an object that is already listed is moved, not
    listed twice.  With [makeDflt] it becomes the head of the list. *)
Definition sqlite3_vfs_register (g : sqlite3_global) (pVfs : sqlite3_vfs)
  (makeDflt : bool) : Z * sqlite3_global :=
  let l := vfsUnlink (vfs_addr pVfs) (vfsList g) in
  let l' :=
    match l with
    | [] => [pVfs]
    | d :: rest => if makeDflt then pVfs :: l else d :: pVfs :: rest
    end in
  (SQLITE_OK, {| vfsList := l'; next_addr := next_addr g; malloc_left := malloc_left g |}).

Definition newVfsName : string := "sqlcipher".

Section Register.
(** [sizeof(sqlcipherVfs_file)] *)
Variable sizeof_sqlcipherVfs_file : Z.

(** The provider object sqlcipherVfs_register fills in at address [a] over
    the root provider [pRoot] (lines 333-371). *)
Definition shim_vfs (a : nat) (pRoot : sqlite3_vfs) : sqlite3_vfs :=
  {| vfs_addr := a;
     iVersion := iVersion pRoot;
     szOsFile := szOsFile pRoot + sizeof_sqlcipherVfs_file;
     mxPathname := mxPathname pRoot;
     zName := newVfsName;
     pAppData := Some (vfs_addr pRoot);
     xOpen := ShimOpen;
     xBase := xBase pRoot;
     xCurrentTimeInt64 :=
       if 2 <=? iVersion pRoot then xCurrentTimeInt64 pRoot else None;
     xSysCalls :=
       if (2 <=? iVersion pRoot) && (3 <=? iVersion pRoot) then xSysCalls pRoot
       else None |}.

Definition sqlcipherVfs_register (g : sqlite3_global) (zOldVfsName : option string)
  : Z * sqlite3_global :=
  match sqlite3_vfs_find g (Some newVfsName) with
  | None =>
      match sqlite3_vfs_find g zOldVfsName with
      | None => (SQLITE_NOTFOUND, g)
      | Some pRoot =>
          match sqlite3_malloc g with
          | (None, g1) => (SQLITE_NOMEM, g1)
          | (Some a, g1) => sqlite3_vfs_register g1 (shim_vfs a pRoot) true
          end
      end
  | Some pNew => sqlite3_vfs_register g pNew true
  end.

End Register.

(** Number of registered providers called [n]. *)
Definition count_name (n : string) (g : sqlite3_global) : nat :=
  length (filter (fun v => String.eqb n (zName v)) (vfsList g)).

(** The on-disk layout as the specification's table gives it: the magic,
    six big-endian 32-bit fields, zero padding up to the reserve size. *)
Definition header_layout (r v ps k fk fl : Z) : list byte :=
  sqlcipherMagic ++ be32 r ++ be32 v ++ be32 ps ++ be32 k ++ be32 fk ++ be32 fl
  ++ repeat Byte.x00 (Z.to_nat r - 56).

Definition layout_of {F : Type} (p : sqlcipherVfs_file F) : list byte :=
  header_layout (reserve_sz p) (version p) (page_sz p) (kdf_iter p)
    (fast_kdf_iter p) (flags p).

(** The header fields of a handle are 32-bit values. *)
Definition fields_u32 {F : Type} (p : sqlcipherVfs_file F) : Prop :=
  is_u32 (reserve_sz p) /\ is_u32 (version p) /\ is_u32 (page_sz p) /\
  is_u32 (kdf_iter p) /\ is_u32 (fast_kdf_iter p) /\ is_u32 (flags p).

(** ** States of a handle after detection and during the first write *)

(** The handle a plain (headerless) file is given. *)
Definition headerless {F : Type} (f : F) (p : sqlcipherVfs_file F)
  : sqlcipherVfs_file F :=
  set_reserve_sz 0 (set_pReal f (set_flags3 false false false p)).

(** The handle left by a detection that found neither a header, nor a plain
    file, nor an empty file: the flags are cleared and nothing else is
    assigned. *)
Definition unresolved {F : Type} (f : F) (p : sqlcipherVfs_file F)
  : sqlcipherVfs_file F :=
  set_pReal f (set_flags3 false false false p).

(** The handle a new, empty file is given. *)
Definition pending_creation {F : Type} (f : F) (ss : Z) (p : sqlcipherVfs_file F)
  : sqlcipherVfs_file F :=
  set_needs_write true
    (set_reserve_sz (u32_of_int ss) (set_pReal f (set_flags3 false false false p))).

(** The handle between the header write and the data write. *)
Definition after_header_write {F : Type} (M : sqlite3_io_methods F)
  (p : sqlcipherVfs_file F) (image : buffer)
  : sqlcipherVfs_file F :=
  set_needs_write false
    (set_pReal (snd (xWrite M (pReal p) image (int_of_u32 (reserve_sz p)) 0)) p).

(** ** Assumptions on the environment *)

(** An underlying file returns what was last written at an offset. *)
Definition reads_back_writes {F : Type} (M : sqlite3_io_methods F) : Prop :=
  forall (f f' : F) (buf : buffer) (off : Z),
    0 <= off ->
    xWrite M f buf (Z.of_nat (length buf)) off = (SQLITE_OK, f') ->
    exists f'', xRead M f' (Z.of_nat (length buf)) off = (SQLITE_OK, buf, f'').

(** No listed provider sits at or above the allocator's next address. *)
Definition registry_wf (g : sqlite3_global) : Prop :=
  Forall (fun v => (vfs_addr v < next_addr g)%nat) (vfsList g).

(** ** Sample files, handles and registries *)

Definition empty_file (s : Z) : memfile :=
  {| content := []; sector := s; wfaults := [] |}.

Definition stored_file (bytes : list byte) (s : Z) : memfile :=
  {| content := bytes; sector := s; wfaults := [] |}.

Definition failing_once (s : Z) : memfile :=
  {| content := []; sector := s; wfaults := [SQLITE_IOERR_WRITE] |}.

Definition three_bytes : buffer := [Byte.x01; Byte.x02; Byte.x03].

Definition hundred_bytes : buffer := repeat Byte.x2a 100.

Definition sample_header {F : Type} (f : F) : sqlcipherVfs_file F :=
  {| pReal := f; use_header := true; needs_write := true; did_read := false;
     reserve_sz := 64; version := 1; page_sz := 1024; kdf_iter := 64000;
     fast_kdf_iter := 2; flags := 1 |}.

Definition active_header {F : Type} (f : F) : sqlcipherVfs_file F :=
  {| pReal := f; use_header := true; needs_write := false; did_read := true;
     reserve_sz := 64; version := 1; page_sz := 1024; kdf_iter := 64000;
     fast_kdf_iter := 2; flags := 1 |}.

(** A handle with the header switched on and a reserve size of 40. *)
Definition short_reserve : sqlcipherVfs_file memfile :=
  {| pReal := empty_file 40; use_header := true; needs_write := true;
     did_read := false; reserve_sz := 40; version := 1; page_sz := 1024;
     kdf_iter := 64000; fast_kdf_iter := 2; flags := 1 |}.

(** A 40-byte file that starts with the magic and stores a reserve size of
    40. *)
Definition crafted_file : memfile :=
  stored_file (sqlcipherMagic ++ be32 40 ++ be32 7) 512.

Definition unix_vfs : sqlite3_vfs :=
  {| vfs_addr := 1; iVersion := 3; szOsFile := 72; mxPathname := 512;
     zName := "unix"; pAppData := None; xOpen := RootOpen 1; xBase := Some 1%nat;
     xCurrentTimeInt64 := Some 1%nat; xSysCalls := Some 1%nat |}.

Definition boot_registry : sqlite3_global :=
  {| vfsList := [unix_vfs]; next_addr := 2; malloc_left := 4 |}.

Definition starved_registry : sqlite3_global :=
  {| vfsList := [unix_vfs]; next_addr := 2; malloc_left := 0 |}.

(** ** Notions used by the further properties *)

(** A call that only asks the underlying file something. *)
Definition is_query (c : call) : bool :=
  match c with
  | CallRead _ _ | CallFileSize | CallSectorSize => true
  | CallWrite _ _ _ | CallTruncate _ => false
  end.

(** The handle left when the magic matches and the read of the full header
    fails: the stored reserve size stays in [reserve_sz], the header is not
    active. *)
Definition stale_reserve {F : Type} (f : F) (r : Z) (p : sqlcipherVfs_file F)
  : sqlcipherVfs_file F :=
  set_pReal f (set_reserve_sz r (set_flags3 false false false p)).

(** Two handles agree on everything the offset arithmetic and the header
    image depend on. *)
Definition same_header {F : Type} (p p' : sqlcipherVfs_file F) : Prop :=
  use_header p' = use_header p /\ did_read p' = did_read p /\
  reserve_sz p' = reserve_sz p /\ version p' = version p /\
  page_sz p' = page_sz p /\ kdf_iter p' = kdf_iter p /\
  fast_kdf_iter p' = fast_kdf_iter p /\ flags p' = flags p.

(** An underlying file reports the size it was last truncated to. *)
Definition truncate_sets_size {F : Type} (M : sqlite3_io_methods F) : Prop :=
  forall (f f' : F) (size : Z),
    0 <= size ->
    xTruncate M f size = (SQLITE_OK, f') ->
    exists f'', xFileSize M f' = (SQLITE_OK, size, f'').

(** The in-memory file [lf] with the bytes [hdr] in front of it. *)
Definition with_header (hdr : list byte) (lf : memfile) : memfile :=
  {| content := hdr ++ content lf; sector := sector lf; wfaults := wfaults lf |}.

(** A file cut off right after the 36 bytes of magic and reserve size. *)
Definition truncated_header_file : memfile :=
  stored_file (sqlcipherMagic ++ be32 4096) 512.

(** A registry in which the shim is registered but is not the default. *)
Definition demoted_registry : sqlite3_global :=
  {| vfsList := [unix_vfs; shim_vfs 96 2 unix_vfs]; next_addr := 3; malloc_left := 0 |}.

(** A handle over an empty in-memory file with the header active and
    pending and a reserve size of [s]. *)
Definition pending_header (s : Z) : sqlcipherVfs_file memfile :=
  {| pReal := empty_file s; use_header := true; needs_write := true;
     did_read := false; reserve_sz := s; version := 1; page_sz := 1024;
     kdf_iter := 64000; fast_kdf_iter := 2; flags := 1 |}.

(** * Properties *)

(** ** Integers and buffers *)

Lemma add_i64_exact (a b : Z) : is_i64 (a + b) -> add_i64 a b = a + b.
Proof.
  unfold is_i64, add_i64, wrap_i64. intros H.
  rewrite Z.mod_small by lia. lia.
Qed.

Lemma sub_i64_exact (a b : Z) : is_i64 (a - b) -> sub_i64 a b = a - b.
Proof.
  unfold is_i64, sub_i64, wrap_i64. intros H.
  rewrite Z.mod_small by lia. lia.
Qed.

Lemma int_of_u32_exact (z : Z) : z < 2 ^ 31 -> int_of_u32 z = z.
Proof.
  unfold int_of_u32. intros H.
  destruct (Z.ltb_spec z (2 ^ 31)); [reflexivity | lia].
Qed.

Lemma u32_of_int_exact (z : Z) : is_u32 z -> u32_of_int z = z.
Proof. unfold is_u32, u32_of_int. intros H. apply Z.mod_small. lia. Qed.

Lemma bytes_eqb_eq (a b : list byte) : bytes_eqb a b = true <-> a = b.
Proof.
  revert b. induction a as [|x a IH]; intros [|y b]; cbn; split;
    try congruence; try discriminate.
  - rewrite andb_true_iff. intros [Hxy Hab].
    apply Byte.byte_dec_bl in Hxy. apply IH in Hab. congruence.
  - intros E. injection E as -> ->. rewrite andb_true_iff. split.
    + apply Byte.byte_dec_lb. reflexivity.
    + apply IH. reflexivity.
Qed.

Lemma firstn_exact {A : Type} (n : nat) (a b : list A) :
  n = length a -> firstn n (a ++ b) = a.
Proof.
  intros ->. rewrite firstn_app, Nat.sub_diag, firstn_all. cbn.
  apply app_nil_r.
Qed.

Lemma skipn_exact {A : Type} (n : nat) (a b : list A) :
  n = length a -> skipn n (a ++ b) = b.
Proof.
  intros ->. rewrite skipn_app, Nat.sub_diag, skipn_all. reflexivity.
Qed.

Lemma splice_mid (a old c bs : list byte) (off : Z) :
  off = Z.of_nat (length a) -> length old = length bs ->
  splice (a ++ old ++ c) off bs = a ++ bs ++ c.
Proof.
  intros -> Hl. unfold splice. rewrite Nat2Z.id.
  rewrite firstn_exact by reflexivity. f_equal. f_equal.
  rewrite app_assoc. apply skipn_exact.
  rewrite length_app. lia.
Qed.

Lemma in_bounds_true (p : buffer) (off n : Z) :
  0 <= off -> 0 <= n -> off + n <= Z.of_nat (length p) -> in_bounds p off n = true.
Proof.
  intros. unfold in_bounds. rewrite !andb_true_iff, !Z.leb_le. lia.
Qed.

Lemma in_bounds_false (p : buffer) (off n : Z) :
  Z.of_nat (length p) < off + n -> in_bounds p off n = false.
Proof.
  intros. unfold in_bounds. rewrite !andb_false_iff, !Z.leb_gt. lia.
Qed.

Lemma read_into_exact (buf got : list byte) :
  length got = length buf -> read_into buf got = got.
Proof.
  intros H. unfold read_into. rewrite <- H. apply firstn_exact. reflexivity.
Qed.

Lemma get4_be32 (v : Z) (a c : list byte) :
  is_u32 v ->
  sqlite3Get4byte (a ++ be32 v ++ c) (Z.of_nat (length a)) = Ret v.
Proof.
  intros Hv. unfold sqlite3Get4byte, in_bounds.
  rewrite !length_app. change (length (be32 v)) with 4%nat.
  replace ((0 <=? Z.of_nat (length a)) && (0 <=? 4) &&
           (Z.of_nat (length a) + 4 <=? Z.of_nat (length a + (4 + length c)))) with true
    by (symmetry; rewrite !andb_true_iff, !Z.leb_le; lia).
  unfold load.
  replace (Z.to_nat (Z.of_nat (length a))) with (length a + 0)%nat by lia.
  replace (Z.to_nat (Z.of_nat (length a) + 1)) with (length a + 1)%nat by lia.
  replace (Z.to_nat (Z.of_nat (length a) + 2)) with (length a + 2)%nat by lia.
  replace (Z.to_nat (Z.of_nat (length a) + 3)) with (length a + 3)%nat by lia.
  rewrite !app_nth2_plus. unfold be32. cbn [nth app].
  rewrite !byte.unsigned_of_Z. unfold byte.wrap.
  f_equal. unfold is_u32 in Hv.
  rewrite <- (Z.mod_small v (2 ^ 32)) at 5 by lia.
  rewrite <- !Z.land_ones by lia.
  Z.bitblast.
Qed.

(** ** The header codec *)

Lemma z2n_56_split (r : Z) :
  56 <= r -> Z.to_nat r = (56 + (Z.to_nat r - 56))%nat.
Proof. lia. Qed.

Ltac step_put :=
  match goal with
  | |- context [sqlite3Put4byte ?p ?o ?v] =>
      unfold sqlite3Put4byte at 1;
      rewrite (in_bounds_true p o 4)
        by (try lia; cbn [length Nat.add]; lia);
      unfold splice, be32;
      match goal with
      | |- context [Z.to_nat o] =>
          let n := eval vm_compute in (Z.to_nat o) in
          change (Z.to_nat o) with n
      end;
      cbn [firstn skipn app length Nat.add bind]
  end.

Lemma pack_header_layout {F : Type} (p : sqlcipherVfs_file F) :
  SQLCIPHER_FULL_HDR_SZ <= reserve_sz p ->
  pack_header p = Ret (layout_of p).
Proof.
  unfold SQLCIPHER_FULL_HDR_SZ. intros Hr.
  unfold pack_header, layout_of, header_layout, sqlcipher_malloc.
  rewrite (z2n_56_split _ Hr), repeat_app.
  replace (56 + (Z.to_nat (reserve_sz p) - 56) - 56)%nat
    with (Z.to_nat (reserve_sz p) - 56)%nat by lia.
  generalize (repeat Byte.x00 (Z.to_nat (reserve_sz p) - 56)). intros tail.
  cbn [repeat].
  unfold memcpy, SQLCIPHER_MAGIC_SZ.
  rewrite in_bounds_true by (try lia; rewrite ?length_app; cbn [length Nat.add]; lia).
  unfold splice. change (Z.to_nat 32) with 32%nat. change (Z.to_nat 0) with 0%nat.
  unfold sqlcipherMagic.
  cbn [firstn skipn app length Nat.add bind].
  do 6 step_put.
  reflexivity.
Qed.

Lemma get4_at (l a c : list byte) (o v : Z) :
  l = a ++ be32 v ++ c -> o = Z.of_nat (length a) -> is_u32 v ->
  sqlite3Get4byte l o = Ret v.
Proof. intros -> -> Hv. apply get4_be32. exact Hv. Qed.

Lemma length_header_layout (r v ps k fk fl : Z) :
  SQLCIPHER_FULL_HDR_SZ <= r ->
  length (header_layout r v ps k fk fl) = Z.to_nat r.
Proof.
  unfold SQLCIPHER_FULL_HDR_SZ, header_layout. intros Hr.
  rewrite !length_app, repeat_length.
  change (length sqlcipherMagic) with 32%nat.
  change (length (be32 r)) with 4%nat. change (length (be32 v)) with 4%nat.
  change (length (be32 ps)) with 4%nat. change (length (be32 k)) with 4%nat.
  change (length (be32 fk)) with 4%nat. change (length (be32 fl)) with 4%nat.
  lia.
Qed.

Lemma layout_magic (r v ps k fk fl : Z) :
  memcmp_eq (header_layout r v ps k fk fl) sqlcipherMagic SQLCIPHER_MAGIC_SZ = true.
Proof.
  unfold memcmp_eq, header_layout.
  rewrite firstn_exact by reflexivity.
  apply bytes_eqb_eq. reflexivity.
Qed.

Lemma layout_peek (r v ps k fk fl : Z) :
  firstn (Z.to_nat SQLCIPHER_MIN_HDR_SZ) (header_layout r v ps k fk fl)
  = sqlcipherMagic ++ be32 r.
Proof.
  unfold header_layout. rewrite app_assoc. apply firstn_exact. reflexivity.
Qed.

Lemma peek_reserve (r : Z) :
  is_u32 r -> sqlite3Get4byte (sqlcipherMagic ++ be32 r) 32 = Ret r.
Proof.
  intros Hr. apply (get4_at _ sqlcipherMagic [] 32 r).
  - rewrite app_nil_r. reflexivity.
  - reflexivity.
  - exact Hr.
Qed.

Lemma unpack_layout {F : Type} (q : sqlcipherVfs_file F) (r v ps k fk fl : Z) :
  is_u32 v -> is_u32 ps -> is_u32 k -> is_u32 fk -> is_u32 fl ->
  unpack_header q (header_layout r v ps k fk fl)
  = Ret (set_flags3 true (needs_write q) true (set_fields v ps k fk fl q)).
Proof.
  intros Hv Hps Hk Hfk Hfl. unfold unpack_header.
  set (pad := repeat Byte.x00 (Z.to_nat r - 56)).
  rewrite (get4_at _ (sqlcipherMagic ++ be32 r)
             (be32 ps ++ be32 k ++ be32 fk ++ be32 fl ++ pad) 36 v);
    [ | unfold header_layout; rewrite <- ?app_assoc; reflexivity
      | reflexivity | assumption ].
  cbn [bind].
  rewrite (get4_at _ (sqlcipherMagic ++ be32 r ++ be32 v)
             (be32 k ++ be32 fk ++ be32 fl ++ pad) 40 ps);
    [ | unfold header_layout; rewrite <- ?app_assoc; reflexivity
      | reflexivity | assumption ].
  cbn [bind].
  rewrite (get4_at _ (sqlcipherMagic ++ be32 r ++ be32 v ++ be32 ps)
             (be32 fk ++ be32 fl ++ pad) 44 k);
    [ | unfold header_layout; rewrite <- ?app_assoc; reflexivity
      | reflexivity | assumption ].
  cbn [bind].
  rewrite (get4_at _ (sqlcipherMagic ++ be32 r ++ be32 v ++ be32 ps ++ be32 k)
             (be32 fl ++ pad) 48 fk);
    [ | unfold header_layout; rewrite <- ?app_assoc; reflexivity
      | reflexivity | assumption ].
  cbn [bind].
  rewrite (get4_at _ (sqlcipherMagic ++ be32 r ++ be32 v ++ be32 ps ++ be32 k ++ be32 fk)
             pad 52 fl);
    [ | unfold header_layout; rewrite <- ?app_assoc; reflexivity
      | reflexivity | assumption ].
  reflexivity.
Qed.

Lemma peek_magic (r : Z) :
  memcmp_eq (sqlcipherMagic ++ be32 r) sqlcipherMagic SQLCIPHER_MAGIC_SZ = true.
Proof.
  unfold memcmp_eq. rewrite firstn_exact by reflexivity.
  apply bytes_eqb_eq. reflexivity.
Qed.

(** Header detection over a file whose two reads deliver a stored header
    image: the handle comes back with the header active and the six stored
    fields. *)
Lemma read_header_of_layout {F : Type} (M : sqlite3_io_methods F)
  (q : sqlcipherVfs_file F) (r v ps k fk fl : Z) (f1 f2 : F) :
  is_u32 r -> is_u32 v -> is_u32 ps -> is_u32 k -> is_u32 fk -> is_u32 fl ->
  SQLCIPHER_FULL_HDR_SZ <= r ->
  xRead M (pReal q) SQLCIPHER_MIN_HDR_SZ 0
    = (SQLITE_OK, sqlcipherMagic ++ be32 r, f1) ->
  xRead M f1 (int_of_u32 r) 0 = (SQLITE_OK, header_layout r v ps k fk fl, f2) ->
  sqlcipherVfsReadHeader M q
  = Ret (SQLITE_OK,
         {| pReal := f2; use_header := true; needs_write := false; did_read := true;
            reserve_sz := r; version := v; page_sz := ps; kdf_iter := k;
            fast_kdf_iter := fk; flags := fl |}).
Proof.
  intros Hr Hv Hps Hk Hfk Hfl Hsz H1 H2.
  unfold sqlcipherVfsReadHeader. cbn [set_flags3 pReal].
  rewrite H1. cbn [set_pReal pReal].
  rewrite read_into_exact by (rewrite repeat_length; reflexivity).
  change (SQLITE_OK =? SQLITE_OK) with true. cbv iota.
  rewrite peek_magic, (peek_reserve r Hr).
  cbn [bind set_reserve_sz set_pReal set_flags3 reserve_sz pReal].
  rewrite H2.
  rewrite read_into_exact
    by (unfold sqlcipher_malloc; rewrite repeat_length, length_header_layout; auto).
  change (SQLITE_OK =? SQLITE_OK) with true. cbv iota.
  rewrite unpack_layout by assumption.
  reflexivity.
Qed.

(** C8. Encoding a header record whose fields are 32-bit values and whose
    reserve size is at least 56 gives the documented image: the magic at
    offset 0, then reserveSize, version, pageSize, kdfIterations,
    fastKdfIterations and flags as big-endian 32-bit integers at offsets 32
    to 52, then zero padding.  Header detection over a file that delivers
    these bytes (the first 36, then all reserve_sz of them) yields a handle
    whose six numeric fields equal the original ones. *)
Theorem header_roundtrip {F : Type} (M : sqlite3_io_methods F)
  (p q : sqlcipherVfs_file F) (f1 f2 : F) :
  fields_u32 p ->
  SQLCIPHER_FULL_HDR_SZ <= reserve_sz p ->
  exists image,
    pack_header p = Ret image /\
    image = sqlcipherMagic ++ be32 (reserve_sz p) ++ be32 (version p)
              ++ be32 (page_sz p) ++ be32 (kdf_iter p) ++ be32 (fast_kdf_iter p)
              ++ be32 (flags p) ++ repeat Byte.x00 (Z.to_nat (reserve_sz p) - 56) /\
    length image = Z.to_nat (reserve_sz p) /\
    (xRead M (pReal q) SQLCIPHER_MIN_HDR_SZ 0
       = (SQLITE_OK, firstn (Z.to_nat SQLCIPHER_MIN_HDR_SZ) image, f1) ->
     xRead M f1 (int_of_u32 (reserve_sz p)) 0 = (SQLITE_OK, image, f2) ->
     exists q',
       sqlcipherVfsReadHeader M q = Ret (SQLITE_OK, q') /\
       use_header q' = true /\
       reserve_sz q' = reserve_sz p /\ version q' = version p /\
       page_sz q' = page_sz p /\ kdf_iter q' = kdf_iter p /\
       fast_kdf_iter q' = fast_kdf_iter p /\ flags q' = flags p).
Proof.
  intros (Hr & Hv & Hps & Hk & Hfk & Hfl) Hsz.
  exists (layout_of p). split; [apply pack_header_layout; exact Hsz|].
  split; [reflexivity|].
  unfold layout_of.
  split; [exact (length_header_layout _ _ _ _ _ _ Hsz)|].
  rewrite layout_peek. intros H1 H2.
  eexists. split.
  - apply (read_header_of_layout M q (reserve_sz p) (version p) (page_sz p)
             (kdf_iter p) (fast_kdf_iter p) (flags p) f1 f2); assumption.
  - cbn. repeat split.
Qed.

Lemma header_roundtrip_witness :
  let p := sample_header (empty_file 64) in
  let f := stored_file (layout_of p) 64 in
  exists image,
    pack_header p = Ret image /\
    image = sqlcipherMagic ++ be32 64 ++ be32 1 ++ be32 1024 ++ be32 64000
              ++ be32 2 ++ be32 1 ++ repeat Byte.x00 8 /\
    length image = 64%nat /\
    exists q',
      sqlcipherVfsReadHeader mem_methods (blank_file f) = Ret (SQLITE_OK, q') /\
      use_header q' = true /\
      reserve_sz q' = 64 /\ version q' = 1 /\ page_sz q' = 1024 /\
      kdf_iter q' = 64000 /\ fast_kdf_iter q' = 2 /\ flags q' = 1.
Proof.
  intros p f.
  destruct (header_roundtrip mem_methods p (blank_file f) f f)
    as (image & Hpack & Himg & Hlen & Hdec).
  - unfold fields_u32, is_u32; cbn; lia.
  - unfold SQLCIPHER_FULL_HDR_SZ; cbn; lia.
  - exists image. split; [exact Hpack|]. split; [exact Himg|].
    split; [exact Hlen|].
    apply Hdec; subst image; vm_compute; reflexivity.
Defined.

(** ** The offset-translating file methods *)

Section Methods.
Context {F : Type}.
Variable M : sqlite3_io_methods F.

Lemma write_not_due (p : sqlcipherVfs_file F) (zBuf : buffer) (iAmt iOfst : Z) :
  header_write_due p iOfst = false ->
  sqlcipherVfsWrite M p zBuf iAmt iOfst
  = Ret (let '(rc, f) := xWrite M (pReal p) zBuf iAmt (add_i64 iOfst (header_shift p)) in
         (rc, set_pReal f p)).
Proof.
  intros Hd. unfold sqlcipherVfsWrite. rewrite Hd. cbn [bind].
  destruct (xWrite M (pReal p) zBuf iAmt (add_i64 iOfst (header_shift p))).
  reflexivity.
Qed.

Lemma write_due (p : sqlcipherVfs_file F) (image zBuf : buffer) (iAmt iOfst : Z) :
  header_write_due p iOfst = true ->
  pack_header p = Ret image ->
  sqlcipherVfsWrite M p zBuf iAmt iOfst
  = Ret (let p1 := after_header_write M p image in
         let '(rc, f) := xWrite M (pReal p1) zBuf iAmt (add_i64 iOfst (header_shift p)) in
         (rc, set_pReal f p1)).
Proof.
  intros Hd Hp. unfold sqlcipherVfsWrite, sqlcipherVfsWriteHeader, after_header_write.
  rewrite Hd, Hp. cbn [bind].
  destruct (xWrite M (pReal p) image (int_of_u32 (reserve_sz p)) 0) as [rc0 f1].
  cbn [bind snd].
  change (header_shift (set_needs_write false (set_pReal f1 p))) with (header_shift p).
  change (pReal (set_needs_write false (set_pReal f1 p))) with f1.
  destruct (xWrite M f1 zBuf iAmt (add_i64 iOfst (header_shift p))) as [rc f2].
  reflexivity.
Qed.

Lemma write_due_crash (p : sqlcipherVfs_file F) (zBuf : buffer) (iAmt iOfst : Z)
  (e : fault) :
  header_write_due p iOfst = true ->
  pack_header p = Crash e ->
  sqlcipherVfsWrite M p zBuf iAmt iOfst = Crash e.
Proof.
  intros Hd Hp. unfold sqlcipherVfsWrite, sqlcipherVfsWriteHeader.
  rewrite Hd, Hp. reflexivity.
Qed.

(** Whatever a returning write did first, it ended with the underlying
    write at the shifted offset and left the shift alone. *)
Lemma write_returns (p p' : sqlcipherVfs_file F) (zBuf : buffer) (iAmt iOfst rc : Z) :
  sqlcipherVfsWrite M p zBuf iAmt iOfst = Ret (rc, p') ->
  exists f0,
    xWrite M f0 zBuf iAmt (add_i64 iOfst (header_shift p)) = (rc, pReal p') /\
    header_shift p' = header_shift p /\
    (header_write_due p iOfst = false -> f0 = pReal p) /\
    (header_write_due p iOfst = true -> needs_write p' = false).
Proof.
  intros H. destruct (header_write_due p iOfst) eqn:Hd.
  - destruct (pack_header p) as [image|e] eqn:Hp.
    + rewrite (write_due p image zBuf iAmt iOfst Hd Hp) in H.
      cbv zeta in H.
      destruct (xWrite M (pReal (after_header_write M p image)) zBuf iAmt
                  (add_i64 iOfst (header_shift p))) as [rc1 f2] eqn:Hw.
      injection H as <- <-.
      exists (pReal (after_header_write M p image)).
      repeat split; auto; discriminate.
    + rewrite (write_due_crash p zBuf iAmt iOfst e Hd Hp) in H. discriminate.
  - rewrite (write_not_due p zBuf iAmt iOfst Hd) in H.
    destruct (xWrite M (pReal p) zBuf iAmt (add_i64 iOfst (header_shift p)))
      as [rc1 f2] eqn:Hw.
    injection H as <- <-.
    exists (pReal p). repeat split; auto; discriminate.
Qed.

(** C2. Read, write and truncate hand their arguments to the underlying
    operation at the logical offset plus the reserve size when the header is
    active, and at the logical offset itself when it is not, and return the
    underlying result as it is; a write that has to store the header first
    does so and then delegates in the same way.  Over a file that reads back
    what was written, a successful write of L bytes at a logical offset
    O >= 0 of a handle with an active header followed by a read of L bytes
    at O returns the written bytes. *)
Theorem offset_translation (p : sqlcipherVfs_file F) (zBuf : buffer)
  (iAmt iOfst : Z) :
  is_u32 (reserve_sz p) ->
  is_i64 (iOfst + header_shift p) ->
  header_shift p = (if use_header p then reserve_sz p else 0) /\
  sqlcipherVfsRead M p iAmt iOfst
    = (let '(rc, got, f) := xRead M (pReal p) iAmt (iOfst + header_shift p) in
       (rc, got, set_pReal f p)) /\
  sqlcipherVfsTruncate M p iOfst
    = (let '(rc, f) := xTruncate M (pReal p) (iOfst + header_shift p) in
       (rc, set_pReal f p)) /\
  ((header_write_due p iOfst = true -> SQLCIPHER_FULL_HDR_SZ <= reserve_sz p) ->
   exists p1,
     header_shift p1 = header_shift p /\
     (header_write_due p iOfst = false -> p1 = p) /\
     sqlcipherVfsWrite M p zBuf iAmt iOfst
       = Ret (let '(rc, f) := xWrite M (pReal p1) zBuf iAmt (iOfst + header_shift p) in
              (rc, set_pReal f p1))) /\
  (forall p',
     reads_back_writes M ->
     use_header p = true -> 0 <= iOfst -> iAmt = Z.of_nat (length zBuf) ->
     sqlcipherVfsWrite M p zBuf iAmt iOfst = Ret (SQLITE_OK, p') ->
     exists p'', sqlcipherVfsRead M p' iAmt iOfst = (SQLITE_OK, zBuf, p'')).
Proof.
  intros Hu32 Hofs. split; [reflexivity|].
  split; [unfold sqlcipherVfsRead; rewrite add_i64_exact by exact Hofs; reflexivity|].
  split; [unfold sqlcipherVfsTruncate; rewrite add_i64_exact by exact Hofs; reflexivity|].
  split.
  - intros Hsz. destruct (header_write_due p iOfst) eqn:Hd.
    + exists (after_header_write M p (layout_of p)). split; [reflexivity|].
      split; [discriminate|].
      rewrite (write_due p (layout_of p) zBuf iAmt iOfst Hd)
        by (apply pack_header_layout; auto).
      rewrite add_i64_exact by exact Hofs. reflexivity.
    + exists p. split; [reflexivity|]. split; [reflexivity|].
      rewrite (write_not_due p zBuf iAmt iOfst Hd).
      rewrite add_i64_exact by exact Hofs. reflexivity.
  - intros p' Hlaw Hu Hnn -> Hw.
    destruct (write_returns _ _ _ _ _ _ Hw) as (f0 & Hx & Hs & _).
    rewrite add_i64_exact in Hx by exact Hofs.
    assert (Hpos : 0 <= iOfst + header_shift p)
      by (unfold header_shift; rewrite Hu; unfold is_u32 in Hu32; lia).
    destruct (Hlaw _ _ _ _ Hpos Hx) as (f'' & Hrd).
    exists (set_pReal f'' p').
    unfold sqlcipherVfsRead. rewrite Hs, add_i64_exact by exact Hofs.
    rewrite Hrd. reflexivity.
Qed.

End Methods.

(** ** The in-memory file *)

Lemma mem_store_ok (f : memfile) (buf : buffer) (off : Z) (rest : list Z) :
  0 <= off ->
  mem_store f buf (Z.of_nat (length buf)) off rest
  = (SQLITE_OK,
     {| content :=
          splice (content f ++ repeat Byte.x00
                    (Z.to_nat (off + Z.of_nat (length buf)) - length (content f)))
            off buf;
        sector := sector f; wfaults := rest |}).
Proof.
  intros Hoff. unfold mem_store.
  replace ((Z.of_nat (length buf) <? 0) || (off <? 0)
           || (Z.of_nat (length buf) <? Z.of_nat (length buf))) with false.
  - rewrite Nat2Z.id, firstn_all. reflexivity.
  - symmetry. rewrite !orb_false_iff, !Z.ltb_ge. lia.
Qed.

Lemma mem_read_spliced (pre buf post : list byte) (s : Z) (wf : list Z) (off : Z) :
  off = Z.of_nat (length pre) ->
  mem_read {| content := pre ++ buf ++ post; sector := s; wfaults := wf |}
    (Z.of_nat (length buf)) off
  = (SQLITE_OK, buf, {| content := pre ++ buf ++ post; sector := s; wfaults := wf |}).
Proof.
  intros ->. unfold mem_read. cbn [content].
  replace ((Z.of_nat (length buf) <? 0) || (Z.of_nat (length pre) <? 0)) with false
    by (symmetry; rewrite orb_false_iff, !Z.ltb_ge; lia).
  rewrite !Nat2Z.id, skipn_exact by reflexivity.
  rewrite firstn_exact by reflexivity.
  rewrite Nat.eqb_refl. reflexivity.
Qed.

Lemma splice_shape (l bs : list byte) (off : Z) :
  0 <= off -> (Z.to_nat off + length bs <= length l)%nat ->
  splice l off bs
  = firstn (Z.to_nat off) l ++ bs ++ skipn (Z.to_nat off + length bs) l
  /\ length (firstn (Z.to_nat off) l) = Z.to_nat off.
Proof.
  intros Hoff Hlen. split; [reflexivity|].
  rewrite length_firstn. lia.
Qed.

Lemma mem_reads_back : reads_back_writes mem_methods.
Proof.
  intros f f' buf off Hoff Hw. cbn [xWrite xRead mem_methods] in *.
  assert (Hst : exists rest,
             f' = {| content :=
                       splice (content f ++ repeat Byte.x00
                                 (Z.to_nat (off + Z.of_nat (length buf))
                                  - length (content f))) off buf;
                     sector := sector f; wfaults := rest |}).
  { unfold mem_write in Hw. destruct (wfaults f) as [|rc rest].
    - rewrite mem_store_ok in Hw by exact Hoff. injection Hw as <-. eauto.
    - destruct (rc =? SQLITE_OK) eqn:Hrc.
      + rewrite mem_store_ok in Hw by exact Hoff. injection Hw as <-. eauto.
      + injection Hw as Hrc' _. rewrite Hrc' in Hrc. discriminate. }
  destruct Hst as (rest & ->).
  set (l := content f ++ _).
  destruct (splice_shape l buf off Hoff) as [-> Hpre].
  { subst l. rewrite length_app, repeat_length. lia. }
  eexists. apply mem_read_spliced. rewrite Hpre. lia.
Qed.

Lemma offset_translation_witness :
  let f := stored_file (layout_of (sample_header (empty_file 64))) 64 in
  let p := active_header f in
  exists p' p'',
    sqlcipherVfsWrite mem_methods p three_bytes 3 5 = Ret (SQLITE_OK, p') /\
    sqlcipherVfsRead mem_methods p' 3 5 = (SQLITE_OK, three_bytes, p'') /\
    skipn 69 (content (pReal p')) = three_bytes.
Proof.
  intros f p.
  destruct (offset_translation mem_methods p three_bytes 3 5)
    as (_ & _ & _ & _ & Hback).
  - unfold is_u32; cbn; lia.
  - unfold is_i64; cbn; lia.
  - destruct (sqlcipherVfsWrite mem_methods p three_bytes 3 5) as [[rc p']|e] eqn:Hw;
      vm_compute in Hw; [|discriminate].
    injection Hw as <- <-.
    destruct (Hback _ mem_reads_back eq_refl ltac:(lia) eq_refl eq_refl) as (p'' & Hrd).
    eexists _, p''. split; [reflexivity|]. split; [exact Hrd|]. reflexivity.
Defined.

(** ** File size *)

(** C3. fileSize makes one size query on the underlying file and returns its
    status unchanged.  With the header active the reported size is the real
    size minus the reserve size, floored at 0: it is never negative, and it
    is exactly 0 for every real size below the reserve size.  With the
    header not active the real size is reported as it is. *)
Theorem fileSize_floor {F : Type} (M : sqlite3_io_methods F)
  (p : sqlcipherVfs_file (F * list call)) (rc rSize : Z) (f1 : F) :
  is_u32 (reserve_sz p) ->
  is_i64 rSize ->
  xFileSize M (fst (pReal p)) = (rc, rSize, f1) ->
  exists pSize,
    sqlcipherVfsFileSize (traced M) p
      = (rc, pSize, set_pReal (f1, CallFileSize :: snd (pReal p)) p) /\
    (use_header p = true ->
       pSize = Z.max 0 (rSize - reserve_sz p) /\ 0 <= pSize /\
       (rSize < reserve_sz p -> pSize = 0)) /\
    (use_header p = false -> pSize = rSize).
Proof.
  unfold is_u32, is_i64. intros Hr Hs Hq.
  unfold sqlcipherVfsFileSize. cbn [xFileSize traced]. rewrite Hq.
  eexists. split; [reflexivity|].
  destruct (use_header p); split; try discriminate; intros _.
  - destruct (Z.leb_spec (reserve_sz p) rSize).
    + rewrite sub_i64_exact by (unfold is_i64; lia). lia.
    + lia.
  - reflexivity.
Qed.

Lemma fileSize_floor_witness :
  let f := stored_file three_bytes 64 in
  exists p',
    sqlcipherVfsFileSize (traced mem_methods) (active_header (f, [])) = (SQLITE_OK, 0, p') /\
    snd (pReal p') = [CallFileSize].
Proof.
  intros f.
  destruct (fileSize_floor mem_methods (active_header (f, [])) SQLITE_OK 3 f)
    as (pSize & Heq & Hact & _).
  - unfold is_u32; cbn; lia.
  - unfold is_i64; lia.
  - reflexivity.
  - destruct (Hact eq_refl) as (_ & _ & Hz).
    rewrite (Hz ltac:(cbn; lia)) in Heq.
    eexists. split; [exact Heq|]. reflexivity.
Defined.

(** ** Header detection *)

Lemma memcmp_differs (got : list byte) :
  length got = 36%nat ->
  firstn 32 got <> sqlcipherMagic ->
  memcmp_eq (read_into (repeat Byte.x00 (Z.to_nat SQLCIPHER_MIN_HDR_SZ)) got)
    sqlcipherMagic SQLCIPHER_MAGIC_SZ = false.
Proof.
  intros Hl Hne. rewrite read_into_exact by (rewrite repeat_length; exact Hl).
  unfold memcmp_eq. change (Z.to_nat SQLCIPHER_MAGIC_SZ) with 32%nat.
  change (firstn 32 sqlcipherMagic) with sqlcipherMagic.
  destruct (bytes_eqb (firstn 32 got) sqlcipherMagic) eqn:E; [|reflexivity].
  apply bytes_eqb_eq in E. contradiction.
Qed.

Lemma read_header_plain {F : Type} (M : sqlite3_io_methods F)
  (p : sqlcipherVfs_file F) (got : list byte) (f1 : F) :
  xRead M (pReal p) SQLCIPHER_MIN_HDR_SZ 0 = (SQLITE_OK, got, f1) ->
  length got = 36%nat ->
  firstn 32 got <> sqlcipherMagic ->
  sqlcipherVfsReadHeader M p = Ret (SQLITE_OK, headerless f1 p).
Proof.
  intros Hrd Hl Hne. unfold sqlcipherVfsReadHeader.
  change (pReal (set_flags3 false false false p)) with (pReal p).
  rewrite Hrd. change (SQLITE_OK =? SQLITE_OK) with true. cbv iota.
  rewrite (memcmp_differs got Hl Hne). reflexivity.
Qed.

Lemma add_i64_zero (z : Z) : is_i64 z -> add_i64 z 0 = z.
Proof. intros H. rewrite add_i64_exact; rewrite Z.add_0_r; auto. Qed.

(** C7. Opening a file whose first 36 bytes are readable and whose first 32
    bytes differ from the magic constant, the allocation of the shim's
    method table succeeding, fails with nothing of its own (the root
    provider's status is returned), sets reserve_sz to 0 and leaves the
    header inactive; the only call made on the underlying file is the
    36-byte read, so nothing is written.  On the resulting handle no header
    write is ever due, and read, write, truncate and the size query go to
    the underlying file with the offset, and the size, unchanged. *)
Theorem plain_file_passthrough {F : Type} (M : sqlite3_io_methods F)
  (s : F * list call) (p0 : sqlcipherVfs_file (F * list call))
  (rc0 : Z) (got : list byte) (f1 : F) :
  xRead M (fst s) SQLCIPHER_MIN_HDR_SZ 0 = (SQLITE_OK, got, f1) ->
  length got = 36%nat ->
  firstn 32 got <> sqlcipherMagic ->
  exists p',
    sqlcipherVfsOpen (traced M) true (rc0, Some s) p0 = Ret (rc0, p') /\
    reserve_sz p' = 0 /\ use_header p' = false /\ needs_write p' = false /\
    pReal p' = (f1, CallRead SQLCIPHER_MIN_HDR_SZ 0 :: snd s) /\
    forall (zBuf : buffer) (iAmt iOfst : Z),
      is_i64 iOfst ->
      header_write_due p' iOfst = false /\
      sqlcipherVfsRead (traced M) p' iAmt iOfst
        = (let '(rc, bytes, f) := xRead M f1 iAmt iOfst in
           (rc, bytes, set_pReal (f, CallRead iAmt iOfst :: snd (pReal p')) p')) /\
      sqlcipherVfsWrite (traced M) p' zBuf iAmt iOfst
        = Ret (let '(rc, f) := xWrite M f1 zBuf iAmt iOfst in
               (rc, set_pReal (f, CallWrite zBuf iAmt iOfst :: snd (pReal p')) p')) /\
      sqlcipherVfsTruncate (traced M) p' iOfst
        = (let '(rc, f) := xTruncate M f1 iOfst in
           (rc, set_pReal (f, CallTruncate iOfst :: snd (pReal p')) p')) /\
      sqlcipherVfsFileSize (traced M) p'
        = (let '(rc, sz, f) := xFileSize M f1 in
           (rc, sz, set_pReal (f, CallFileSize :: snd (pReal p')) p')).
Proof.
  intros Hrd Hl Hne.
  exists (headerless (f1, CallRead SQLCIPHER_MIN_HDR_SZ 0 :: snd s) p0).
  split.
  - unfold sqlcipherVfsOpen.
    rewrite (read_header_plain (traced M) (set_pReal s p0) got
               (f1, CallRead SQLCIPHER_MIN_HDR_SZ 0 :: snd s)); auto.
    cbn [xRead traced pReal set_pReal]. rewrite Hrd. reflexivity.
  - do 4 (split; [reflexivity|]).
    intros zBuf iAmt iOfst Hi.
    assert (Hd : header_write_due
                   (headerless (f1, CallRead SQLCIPHER_MIN_HDR_SZ 0 :: snd s) p0) iOfst
                 = false) by reflexivity.
    split; [exact Hd|].
    split; [|split; [|split]].
    + unfold sqlcipherVfsRead.
      change (header_shift (headerless _ p0)) with 0.
      rewrite add_i64_zero by exact Hi.
      cbn [xRead traced pReal headerless set_reserve_sz set_pReal fst snd].
      destruct (xRead M f1 iAmt iOfst) as [[rc bytes] f]. reflexivity.
    + rewrite write_not_due by exact Hd.
      change (header_shift (headerless _ p0)) with 0.
      rewrite add_i64_zero by exact Hi.
      cbn [xWrite traced pReal headerless set_reserve_sz set_pReal fst snd].
      destruct (xWrite M f1 zBuf iAmt iOfst) as [rc f]. reflexivity.
    + unfold sqlcipherVfsTruncate.
      change (header_shift (headerless _ p0)) with 0.
      rewrite add_i64_zero by exact Hi.
      cbn [xTruncate traced pReal headerless set_reserve_sz set_pReal fst snd].
      destruct (xTruncate M f1 iOfst) as [rc f]. reflexivity.
    + unfold sqlcipherVfsFileSize.
      cbn [xFileSize traced pReal headerless set_reserve_sz set_pReal fst snd
           use_header set_flags3].
      destruct (xFileSize M f1) as [[rc sz] f]. reflexivity.
Qed.

Lemma plain_file_passthrough_witness :
  let s := (stored_file (repeat Byte.x2a 40) 512, @nil call) in
  exists p',
    sqlcipherVfsOpen (traced mem_methods) true (SQLITE_OK, Some s) (blank_file s)
      = Ret (SQLITE_OK, p') /\
    reserve_sz p' = 0 /\ use_header p' = false /\
    snd (pReal p') = [CallRead 36 0] /\
    fst (sqlcipherVfsRead (traced mem_methods) p' 2 38) = (SQLITE_OK, [Byte.x2a; Byte.x2a]).
Proof.
  intros s.
  destruct (plain_file_passthrough mem_methods s (blank_file s) SQLITE_OK
              (repeat Byte.x2a 36) (fst s))
    as (p' & Hopen & Hr & Hu & _ & Htr & Hops).
  - reflexivity.
  - reflexivity.
  - vm_compute. discriminate.
  - exists p'. split; [exact Hopen|]. split; [exact Hr|]. split; [exact Hu|].
    split; [rewrite Htr; reflexivity|].
    destruct (Hops [] 2 38) as (_ & Hrd & _).
    + unfold is_i64; lia.
    + rewrite Hrd. reflexivity.
Defined.

Lemma read_header_unresolved {F : Type} (M : sqlite3_io_methods F)
  (p : sqlcipherVfs_file F) (rc1 rc2 fsize : Z) (got : list byte) (f1 f2 : F) :
  xRead M (pReal p) SQLCIPHER_MIN_HDR_SZ 0 = (rc1, got, f1) ->
  rc1 <> SQLITE_OK ->
  xFileSize M f1 = (rc2, fsize, f2) ->
  rc2 <> SQLITE_OK \/ fsize <> 0 ->
  sqlcipherVfsReadHeader M p = Ret (SQLITE_OK, unresolved f2 p).
Proof.
  intros Hrd Hrc Hfs Hno. unfold sqlcipherVfsReadHeader.
  change (pReal (set_flags3 false false false p)) with (pReal p).
  rewrite Hrd. apply Z.eqb_neq in Hrc. rewrite Hrc.
  cbn [pReal set_pReal]. rewrite Hfs.
  replace ((rc2 =? SQLITE_OK) && (fsize =? 0)) with false.
  - reflexivity.
  - symmetry. apply andb_false_iff.
    destruct Hno as [H|H]; [left|right]; apply Z.eqb_neq; exact H.
Qed.

Lemma read_header_new {F : Type} (M : sqlite3_io_methods F)
  (p : sqlcipherVfs_file F) (rc1 ss : Z) (got : list byte) (f1 f2 f3 : F) :
  xRead M (pReal p) SQLCIPHER_MIN_HDR_SZ 0 = (rc1, got, f1) ->
  rc1 <> SQLITE_OK ->
  xFileSize M f1 = (SQLITE_OK, 0, f2) ->
  xSectorSize M f2 = (ss, f3) ->
  sqlcipherVfsReadHeader M p = Ret (SQLITE_OK, pending_creation f3 ss p).
Proof.
  intros Hrd Hrc Hfs Hss. unfold sqlcipherVfsReadHeader.
  change (pReal (set_flags3 false false false p)) with (pReal p).
  rewrite Hrd. apply Z.eqb_neq in Hrc. rewrite Hrc.
  cbn [pReal set_pReal]. rewrite Hfs.
  change ((SQLITE_OK =? SQLITE_OK) && (0 =? 0)) with true. cbv iota.
  cbn [pReal set_pReal]. rewrite Hss. reflexivity.
Qed.

(** C6 (as the code has it). When the 36-byte read fails and the size query
    fails or reports a size other than 0, the open does not fail on that
    account: the allocation of the shim's method table succeeding, it
    returns the root provider's status.  No reserve size is
    assigned (the field keeps what the handle storage held), the header is
    left inactive and no header write is pending, so the handle is treated
    as headerless: the offset shift is 0 and no header write is ever due.
    The underlying file saw the read and the size query, nothing else. *)
Theorem unreadable_header_is_headerless {F : Type} (M : sqlite3_io_methods F)
  (s : F * list call) (p0 : sqlcipherVfs_file (F * list call))
  (rc0 rc1 rc2 fsize : Z) (got : list byte) (f1 f2 : F) :
  xRead M (fst s) SQLCIPHER_MIN_HDR_SZ 0 = (rc1, got, f1) ->
  rc1 <> SQLITE_OK ->
  xFileSize M f1 = (rc2, fsize, f2) ->
  rc2 <> SQLITE_OK \/ fsize <> 0 ->
  exists p',
    sqlcipherVfsOpen (traced M) true (rc0, Some s) p0 = Ret (rc0, p') /\
    use_header p' = false /\ needs_write p' = false /\ did_read p' = false /\
    reserve_sz p' = reserve_sz p0 /\
    pReal p' = (f2, [CallFileSize; CallRead SQLCIPHER_MIN_HDR_SZ 0] ++ snd s) /\
    header_shift p' = 0 /\
    forall iOfst, header_write_due p' iOfst = false.
Proof.
  intros Hrd Hrc Hfs Hno.
  exists (unresolved (f2, [CallFileSize; CallRead SQLCIPHER_MIN_HDR_SZ 0] ++ snd s) p0).
  split.
  - unfold sqlcipherVfsOpen.
    rewrite (read_header_unresolved (traced M) (set_pReal s p0) rc1 rc2 fsize got
               (f1, CallRead SQLCIPHER_MIN_HDR_SZ 0 :: snd s)
               (f2, [CallFileSize; CallRead SQLCIPHER_MIN_HDR_SZ 0] ++ snd s)); auto.
    + cbn [xRead traced pReal set_pReal]. rewrite Hrd. reflexivity.
    + cbn [xFileSize traced fst snd]. rewrite Hfs. reflexivity.
  - repeat split.
Qed.

Lemma unreadable_header_is_headerless_witness :
  let s := (stored_file three_bytes 512, @nil call) in
  exists p',
    sqlcipherVfsOpen (traced mem_methods) true (SQLITE_OK, Some s) (blank_file s)
      = Ret (SQLITE_OK, p') /\
    use_header p' = false /\ header_shift p' = 0 /\
    snd (pReal p') = [CallFileSize; CallRead 36 0].
Proof.
  intros s.
  destruct (unreadable_header_is_headerless mem_methods s (blank_file s) SQLITE_OK
              SQLITE_IOERR_SHORT_READ SQLITE_OK 3
              (three_bytes ++ repeat Byte.x00 33) (fst s) (fst s))
    as (p' & Hopen & Hu & _ & _ & _ & Htr & Hsh & _).
  - reflexivity.
  - vm_compute. discriminate.
  - reflexivity.
  - right. discriminate.
  - exists p'. split; [exact Hopen|]. split; [exact Hu|]. split; [exact Hsh|].
    rewrite Htr. reflexivity.
Defined.

(** C6, counterexample. A three-byte file: the 36-byte read fails, the size
    is not 0, and the open returns SQLITE_OK. *)
Lemma unreadable_header_opens :
  let f := stored_file three_bytes 512 in
  fst (fst (xRead mem_methods f SQLCIPHER_MIN_HDR_SZ 0)) = SQLITE_IOERR_SHORT_READ /\
  SQLITE_IOERR_SHORT_READ <> SQLITE_OK /\
  fst (xFileSize mem_methods f) = (SQLITE_OK, 3) /\
  sqlcipherVfsOpen mem_methods true (SQLITE_OK, Some f) (blank_file f)
    = Ret (SQLITE_OK, blank_file f).
Proof.
  intros f. split; [reflexivity|]. split; [vm_compute; discriminate|].
  split; reflexivity.
Qed.

(** ** The lazy header write *)

Lemma header_write_due_iff {F : Type} (p : sqlcipherVfs_file F) (iOfst : Z) :
  header_write_due p iOfst = true <->
  use_header p = true /\ SQLCIPHER_MIN_HDR_SZ <= reserve_sz p /\ iOfst = 0 /\
  needs_write p = true.
Proof.
  unfold header_write_due.
  rewrite !andb_true_iff, Z.leb_le, Z.eqb_eq. tauto.
Qed.

Lemma min_hdr_sz_value : SQLCIPHER_MIN_HDR_SZ = 36.
Proof. reflexivity. Qed.

(** C4 (as the code has it). A write for which the header write is due, on
    a handle whose reserve size holds the whole header, makes two
    underlying writes: the header image at offset 0, then the caller's data
    at the reserve size.  Whatever status the header write comes back with,
    pending_header_write is cleared, so no later write has a header write
    due; the call returns the status of the data write. *)
Theorem header_write_not_retried {F : Type} (M : sqlite3_io_methods F)
  (p : sqlcipherVfs_file (F * list call)) (zBuf : buffer) (iAmt iOfst : Z)
  (rcH rcD : Z) (f1 f2 : F) :
  is_u32 (reserve_sz p) ->
  SQLCIPHER_FULL_HDR_SZ <= reserve_sz p ->
  header_write_due p iOfst = true ->
  xWrite M (fst (pReal p)) (layout_of p) (int_of_u32 (reserve_sz p)) 0 = (rcH, f1) ->
  xWrite M f1 zBuf iAmt (reserve_sz p) = (rcD, f2) ->
  exists p',
    sqlcipherVfsWrite (traced M) p zBuf iAmt iOfst = Ret (rcD, p') /\
    needs_write p' = false /\
    pReal p'
      = (f2, [ CallWrite zBuf iAmt (reserve_sz p);
               CallWrite (layout_of p) (int_of_u32 (reserve_sz p)) 0 ]
             ++ snd (pReal p)) /\
    forall iOfst', header_write_due p' iOfst' = false.
Proof.
  intros Hu32 Hsz Hd HwH HwD.
  pose proof (proj1 (header_write_due_iff p iOfst) Hd) as (Hu & _ & -> & _).
  rewrite (write_due (traced M) p (layout_of p) zBuf iAmt 0 Hd)
    by (apply pack_header_layout; exact Hsz).
  unfold after_header_write, header_shift. rewrite Hu.
  rewrite add_i64_exact by (unfold is_u32 in Hu32; unfold is_i64; lia).
  cbn [xWrite traced pReal set_needs_write set_flags3 set_pReal fst snd].
  rewrite HwH. cbn [fst snd Z.add]. rewrite HwD.
  eexists. split; [reflexivity|]. split; [reflexivity|]. split; [reflexivity|].
  intros o. unfold header_write_due. cbn [needs_write set_pReal].
  apply andb_false_r.
Qed.

Lemma header_write_not_retried_witness :
  let s := (failing_once 64, @nil call) in
  exists p',
    sqlcipherVfsWrite (traced mem_methods) (sample_header s) three_bytes 3 0
      = Ret (SQLITE_OK, p') /\
    needs_write p' = false /\
    content (fst (pReal p')) = repeat Byte.x00 64 ++ three_bytes /\
    header_write_due p' 0 = false.
Proof.
  intros s.
  destruct (header_write_not_retried mem_methods (sample_header s) three_bytes 3 0
              SQLITE_IOERR_WRITE SQLITE_OK (empty_file 64)
              (stored_file (repeat Byte.x00 64 ++ three_bytes) 64))
    as (p' & Hw & Hn & Hreal & Hdue).
  - unfold is_u32; cbn; lia.
  - unfold SQLCIPHER_FULL_HDR_SZ; cbn; lia.
  - reflexivity.
  - reflexivity.
  - reflexivity.
  - exists p'. split; [exact Hw|]. split; [exact Hn|].
    split; [rewrite Hreal; reflexivity|]. apply Hdue.
Defined.

(** C4, counterexample. The underlying write of the header fails; the flag
    is cleared all the same, the data write succeeds at offset 64 of a file
    that holds no magic, and a second write at logical offset 0 has no
    header write due. *)
Lemma failed_header_write_clears_flag :
  let p := sample_header (failing_once 64) in
  fst (xWrite mem_methods (pReal p) (layout_of p) 64 0) = SQLITE_IOERR_WRITE /\
  SQLITE_IOERR_WRITE <> SQLITE_OK /\
  needs_write p = true /\
  exists p',
    sqlcipherVfsWrite mem_methods p three_bytes 3 0 = Ret (SQLITE_OK, p') /\
    needs_write p' = false /\
    header_write_due p' 0 = false /\
    content (pReal p') = repeat Byte.x00 64 ++ three_bytes.
Proof.
  intros p. split; [reflexivity|]. split; [vm_compute; discriminate|].
  split; [reflexivity|].
  eexists. split; [vm_compute; reflexivity|]. repeat split.
Qed.

(** ** Bounds of the header buffer *)

Lemma put4_overrun (p : buffer) (off v : Z) :
  Z.of_nat (length p) < off + 4 ->
  sqlite3Put4byte p off v = Crash BufferOverrun.
Proof.
  intros H. unfold sqlite3Put4byte. rewrite in_bounds_false by exact H. reflexivity.
Qed.

Lemma put4_length (p q : buffer) (off v : Z) :
  sqlite3Put4byte p off v = Ret q -> length q = length p.
Proof.
  unfold sqlite3Put4byte, in_bounds. intros H.
  destruct ((0 <=? off) && (0 <=? 4) && (off + 4 <=? Z.of_nat (length p))) eqn:E;
    [|discriminate].
  injection H as <-.
  apply andb_true_iff in E. destruct E as [E1 E3].
  apply andb_true_iff in E1. destruct E1 as [E1 _].
  apply Z.leb_le in E1, E3.
  unfold splice. rewrite !length_app, length_firstn, length_skipn.
  change (length (be32 v)) with 4%nat. lia.
Qed.

Lemma put4_fault (p : buffer) (off v : Z) (e : fault) :
  sqlite3Put4byte p off v = Crash e -> e = BufferOverrun.
Proof.
  unfold sqlite3Put4byte. destruct (in_bounds p off 4); congruence.
Qed.

Lemma memcpy_length (p q : buffer) (src : list byte) (n : Z) :
  (Z.to_nat n <= length src)%nat ->
  memcpy p src n = Ret q -> length q = length p.
Proof.
  unfold memcpy, in_bounds. intros Hsrc H.
  destruct ((0 <=? 0) && (0 <=? n) && (0 + n <=? Z.of_nat (length p))) eqn:E;
    [|discriminate].
  injection H as <-.
  apply andb_true_iff in E. destruct E as [E1 E3].
  apply andb_true_iff in E1. destruct E1 as [_ E2].
  apply Z.leb_le in E2, E3.
  unfold splice. rewrite !length_app, length_firstn, length_skipn, length_firstn.
  change (Z.to_nat 0) with 0%nat. cbn [length Nat.add]. lia.
Qed.

Lemma memcpy_fault (p : buffer) (src : list byte) (n : Z) (e : fault) :
  memcpy p src n = Crash e -> e = BufferOverrun.
Proof.
  unfold memcpy. destruct (in_bounds p 0 n); congruence.
Qed.

(** Building the header image in a buffer shorter than the documented
    56 bytes runs over its end. *)
Lemma pack_header_overrun {F : Type} (p : sqlcipherVfs_file F) :
  reserve_sz p < SQLCIPHER_FULL_HDR_SZ ->
  pack_header p = Crash BufferOverrun.
Proof.
  unfold SQLCIPHER_FULL_HDR_SZ. intros Hr. unfold pack_header.
  assert (Hl0 : Z.of_nat (length (sqlcipher_malloc (reserve_sz p))) < 56)
    by (unfold sqlcipher_malloc; rewrite repeat_length; lia).
  revert Hl0. generalize (sqlcipher_malloc (reserve_sz p)). intros b0 Hl0.
  destruct (memcpy b0 sqlcipherMagic SQLCIPHER_MAGIC_SZ) as [b1|e] eqn:E1;
    [|apply memcpy_fault in E1; subst; reflexivity].
  apply memcpy_length in E1; [|cbn; lia]. cbn [bind].
  destruct (sqlite3Put4byte b1 32 (reserve_sz p)) as [b2|e] eqn:E2;
    [|apply put4_fault in E2; subst; reflexivity].
  apply put4_length in E2. cbn [bind].
  destruct (sqlite3Put4byte b2 36 (version p)) as [b3|e] eqn:E3;
    [|apply put4_fault in E3; subst; reflexivity].
  apply put4_length in E3. cbn [bind].
  destruct (sqlite3Put4byte b3 40 (page_sz p)) as [b4|e] eqn:E4;
    [|apply put4_fault in E4; subst; reflexivity].
  apply put4_length in E4. cbn [bind].
  destruct (sqlite3Put4byte b4 44 (kdf_iter p)) as [b5|e] eqn:E5;
    [|apply put4_fault in E5; subst; reflexivity].
  apply put4_length in E5. cbn [bind].
  destruct (sqlite3Put4byte b5 48 (fast_kdf_iter p)) as [b6|e] eqn:E6;
    [|apply put4_fault in E6; subst; reflexivity].
  apply put4_length in E6. cbn [bind].
  apply put4_overrun. lia.
Qed.

(** The guard of the lazy header write lets through every reserve size from
    36 on: below 56 the header write is entered and overruns its buffer. *)
Lemma write_overrun {F : Type} (M : sqlite3_io_methods F) (p : sqlcipherVfs_file F)
  (zBuf : buffer) (iAmt : Z) :
  use_header p = true -> needs_write p = true ->
  SQLCIPHER_MIN_HDR_SZ <= reserve_sz p < SQLCIPHER_FULL_HDR_SZ ->
  header_write_due p 0 = true /\
  sqlcipherVfsWrite M p zBuf iAmt 0 = Crash BufferOverrun.
Proof.
  intros Hu Hn [Hlo Hhi].
  assert (Hd : header_write_due p 0 = true)
    by (apply header_write_due_iff; auto).
  split; [exact Hd|].
  apply write_due_crash; [exact Hd|]. apply pack_header_overrun. exact Hhi.
Qed.

(** C5, at a reserve size of 40. The specification has no header write
    below 56; the guard compares with SQLCIPHER_MIN_HDR_SZ, which is 36, so
    the header write is due and runs over the 40-byte buffer. *)
Theorem header_write_due_below_56 :
  SQLCIPHER_MIN_HDR_SZ = 36 /\
  reserve_sz short_reserve < SQLCIPHER_FULL_HDR_SZ /\
  header_write_due short_reserve 0 = true /\
  sqlcipherVfsWriteHeader mem_methods short_reserve = Crash BufferOverrun /\
  sqlcipherVfsWrite mem_methods short_reserve three_bytes 3 0 = Crash BufferOverrun.
Proof.
  split; [reflexivity|]. split; [reflexivity|]. split; [reflexivity|].
  split; [reflexivity|].
  apply (write_overrun mem_methods short_reserve three_bytes 3); try reflexivity.
  unfold SQLCIPHER_MIN_HDR_SZ, SQLCIPHER_MAGIC_SZ, SQLCIPHER_FULL_HDR_SZ. cbn. lia.
Qed.

(** C10, at a stored reserve size of 40. Detection reads 40 bytes into a
    40-byte buffer and decodes fields up to offset 55 from it; the header
    write with a reserve size of 40 stores up to offset 55 into a 40-byte
    buffer. *)
Theorem header_buffer_overrun :
  length (content crafted_file) = 40%nat /\
  sqlcipherVfsOpen mem_methods true (SQLITE_OK, Some crafted_file) (blank_file crafted_file)
    = Crash BufferOverrun /\
  header_write_due short_reserve 0 = true /\
  pack_header short_reserve = Crash BufferOverrun.
Proof. repeat split. Qed.

(** ** Creating a file *)

Lemma mem_append (f : memfile) (buf : buffer) :
  wfaults f = [] ->
  mem_write f buf (Z.of_nat (length buf)) (Z.of_nat (length (content f)))
  = (SQLITE_OK, stored_file (content f ++ buf) (sector f)).
Proof.
  intros Hw. unfold mem_write. rewrite Hw.
  rewrite mem_store_ok by lia. unfold stored_file. do 2 f_equal.
  replace (Z.to_nat (Z.of_nat (length (content f)) + Z.of_nat (length buf))
           - length (content f))%nat with (length buf) by lia.
  rewrite <- (app_nil_r (repeat Byte.x00 (length buf))).
  rewrite splice_mid by (rewrite ?repeat_length; reflexivity).
  rewrite app_nil_r. reflexivity.
Qed.

Lemma mem_append_at (f : memfile) (buf : buffer) (amt off : Z) :
  wfaults f = [] ->
  amt = Z.of_nat (length buf) -> off = Z.of_nat (length (content f)) ->
  mem_write f buf amt off = (SQLITE_OK, stored_file (content f ++ buf) (sector f)).
Proof. intros Hw -> ->. apply mem_append. exact Hw. Qed.

Lemma mem_read_at (pre buf post : list byte) (s amt off : Z) :
  amt = Z.of_nat (length buf) -> off = Z.of_nat (length pre) ->
  mem_read (stored_file (pre ++ buf ++ post) s) amt off
  = (SQLITE_OK, buf, stored_file (pre ++ buf ++ post) s).
Proof. intros -> ->. apply mem_read_spliced. reflexivity. Qed.

(** Opening a stored header image followed by [data]. *)
Lemma reopen_layout (p0 : sqlcipherVfs_file memfile) (data : buffer)
  (s v ps k fk fl : Z) :
  SQLCIPHER_FULL_HDR_SZ <= s < 2 ^ 31 ->
  is_u32 v -> is_u32 ps -> is_u32 k -> is_u32 fk -> is_u32 fl ->
  let f := stored_file (header_layout s v ps k fk fl ++ data) s in
  sqlcipherVfsOpen mem_methods true (SQLITE_OK, Some f) p0
  = Ret (SQLITE_OK,
         {| pReal := f; use_header := true; needs_write := false; did_read := true;
            reserve_sz := s; version := v; page_sz := ps; kdf_iter := k;
            fast_kdf_iter := fk; flags := fl |}).
Proof.
  intros Hs Hv Hps Hk Hfk Hfl f. unfold SQLCIPHER_FULL_HDR_SZ in Hs.
  assert (Hu : is_u32 s) by (unfold is_u32; lia).
  assert (H1 : xRead mem_methods (pReal (set_pReal f p0)) SQLCIPHER_MIN_HDR_SZ 0
               = (SQLITE_OK, sqlcipherMagic ++ be32 s, f)).
  { cbn [xRead mem_methods pReal set_pReal]. subst f. unfold header_layout.
    rewrite <- !app_assoc.
    rewrite (app_assoc sqlcipherMagic (be32 s)).
    apply (mem_read_at [] (sqlcipherMagic ++ be32 s)); reflexivity. }
  assert (H2 : xRead mem_methods f (int_of_u32 s) 0
               = (SQLITE_OK, header_layout s v ps k fk fl, f)).
  { cbn [xRead mem_methods]. subst f.
    apply (mem_read_at [] (header_layout s v ps k fk fl) data); [|reflexivity].
    rewrite int_of_u32_exact by lia.
    rewrite length_header_layout by (unfold SQLCIPHER_FULL_HDR_SZ; lia). lia. }
  unfold sqlcipherVfsOpen.
  rewrite (read_header_of_layout mem_methods (set_pReal f p0) s v ps k fk fl f f
             Hu Hv Hps Hk Hfk Hfl (proj1 Hs) H1 H2).
  reflexivity.
Qed.

(** The first write on a handle over an empty in-memory file whose header
    is both active and pending, with a reserve size that holds the whole
    header. *)
Lemma first_write_materializes (p p0 : sqlcipherVfs_file memfile) (data : buffer)
  (s : Z) :
  pReal p = empty_file s ->
  use_header p = true -> needs_write p = true -> reserve_sz p = s ->
  SQLCIPHER_FULL_HDR_SZ <= s < 2 ^ 31 ->
  is_u32 (version p) -> is_u32 (page_sz p) -> is_u32 (kdf_iter p) ->
  is_u32 (fast_kdf_iter p) -> is_u32 (flags p) ->
  is_int (Z.of_nat (length data)) ->
  let N := Z.of_nat (length data) in
  exists p3,
    sqlcipherVfsWrite mem_methods p data N 0 = Ret (SQLITE_OK, p3) /\
    needs_write p3 = false /\
    content (pReal p3) = layout_of p ++ data /\
    Z.of_nat (length (content (pReal p3))) = N + s /\
    exists p4,
      sqlcipherVfsOpen mem_methods true (SQLITE_OK, Some (pReal p3)) p0
        = Ret (SQLITE_OK, p4) /\
      use_header p4 = true /\ reserve_sz p4 = s /\
      sqlcipherVfsFileSize mem_methods p4 = (SQLITE_OK, N, p4) /\
      sqlcipherVfsRead mem_methods p4 N 0 = (SQLITE_OK, data, p4).
Proof.
  destruct p as [f u n d r v ps k fk fl].
  cbn [pReal use_header needs_write reserve_sz version page_sz kdf_iter
       fast_kdf_iter flags].
  intros -> -> -> -> Hs Hv Hps Hk Hfk Hfl HN.
  set (N := Z.of_nat (length data)).
  assert (Hs' : 56 <= s < 2 ^ 31) by exact Hs.
  unfold is_int in HN.
  set (p := {| pReal := empty_file s; use_header := true; needs_write := true;
               did_read := d; reserve_sz := s; version := v; page_sz := ps;
               kdf_iter := k; fast_kdf_iter := fk; flags := fl |}).
  assert (Hlen : length (header_layout s v ps k fk fl) = Z.to_nat s)
    by (apply length_header_layout; apply Hs).
  assert (Hd : header_write_due p 0 = true).
  { apply header_write_due_iff. cbn.
    unfold SQLCIPHER_MIN_HDR_SZ, SQLCIPHER_MAGIC_SZ. repeat split; lia. }
  assert (Hpk : pack_header p = Ret (header_layout s v ps k fk fl)).
  { rewrite pack_header_layout by (cbn; apply Hs). reflexivity. }
  assert (Hhw : xWrite mem_methods (pReal p) (header_layout s v ps k fk fl)
                  (int_of_u32 (reserve_sz p)) 0
                = (SQLITE_OK, stored_file (header_layout s v ps k fk fl) s)).
  { cbn [xWrite mem_methods]. change (pReal p) with (empty_file s).
    change (reserve_sz p) with s.
    rewrite int_of_u32_exact by lia.
    apply (mem_append_at (empty_file s)); [reflexivity| |reflexivity].
    rewrite Hlen. lia. }
  assert (Hdw : xWrite mem_methods (stored_file (header_layout s v ps k fk fl) s)
                  data N (add_i64 0 (header_shift p))
                = (SQLITE_OK, stored_file (header_layout s v ps k fk fl ++ data) s)).
  { change (header_shift p) with s.
    rewrite add_i64_exact by (unfold is_i64; lia).
    cbn [xWrite mem_methods].
    apply (mem_append_at (stored_file (header_layout s v ps k fk fl) s));
      [reflexivity|reflexivity|].
    cbn [content stored_file]. rewrite Hlen. lia. }
  eexists. split.
  { rewrite (write_due mem_methods p _ data N 0 Hd Hpk).
    unfold after_header_write. rewrite Hhw.
    cbn [snd pReal set_needs_write set_flags3 set_pReal].
    rewrite Hdw. reflexivity. }
  split; [reflexivity|]. split; [reflexivity|].
  split.
  { cbn [pReal set_pReal content stored_file]. rewrite length_app, Hlen. lia. }
  eexists. split.
  { cbn [pReal set_pReal]. apply reopen_layout; auto. }
  split; [reflexivity|]. split; [reflexivity|].
  split.
  - unfold sqlcipherVfsFileSize.
    cbn [xFileSize mem_methods pReal use_header reserve_sz content stored_file set_pReal].
    rewrite length_app, Hlen.
    replace (s <=? Z.of_nat (Z.to_nat s + length data)) with true
      by (symmetry; apply Z.leb_le; lia).
    rewrite sub_i64_exact by (unfold is_i64; lia).
    unfold N. do 2 f_equal. lia.
  - unfold sqlcipherVfsRead, header_shift.
    cbn [xRead mem_methods pReal use_header reserve_sz].
    rewrite add_i64_exact by (unfold is_i64; lia).
    rewrite <- (app_nil_r data) at 1.
    rewrite (mem_read_at (header_layout s v ps k fk fl) data [] s N (0 + s));
      [ rewrite app_nil_r; reflexivity | reflexivity | rewrite Hlen; lia ].
Qed.

(** C1 (as the code has it). For every underlying file: when the 36-byte
    read fails and the size query returns 0, the open (its method-table
    allocation succeeding) returns the root provider's status, sets
    reserve_sz to the sector size and needs_write to true, and leaves
    use_header false; the first write at logical offset 0 on that handle is
    then the one underlying write of the data at real offset 0, with no
    header write.  The header is written by the first write at logical
    offset 0 only on a handle whose use_header and needs_write are both
    set: over an empty in-memory file and with a reserve size of at least
    56, that write stores the header at real offset 0 and the N bytes of
    data at real offset reserve_sz, the real size becomes N + reserve_sz,
    and reopening the file finds the magic, reads the stored reserve size
    back, reports a size of N and returns the data at logical offset 0. *)
Theorem new_file_header {F : Type} (M : sqlite3_io_methods F)
  (s0 : F * list call) (p0 : sqlcipherVfs_file (F * list call))
  (rc0 rc1 ss : Z) (got : list byte) (f1 f2 f3 : F) :
  xRead M (fst s0) SQLCIPHER_MIN_HDR_SZ 0 = (rc1, got, f1) ->
  rc1 <> SQLITE_OK ->
  xFileSize M f1 = (SQLITE_OK, 0, f2) ->
  xSectorSize M f2 = (ss, f3) ->
  (exists p1,
     sqlcipherVfsOpen (traced M) true (rc0, Some s0) p0 = Ret (rc0, p1) /\
     reserve_sz p1 = u32_of_int ss /\ needs_write p1 = true /\
     use_header p1 = false /\
     pReal p1
       = (f3, [CallSectorSize; CallFileSize; CallRead SQLCIPHER_MIN_HDR_SZ 0] ++ snd s0) /\
     forall (zBuf : buffer) (iAmt : Z),
       header_write_due p1 0 = false /\
       sqlcipherVfsWrite (traced M) p1 zBuf iAmt 0
         = Ret (let '(rc, f) := xWrite M f3 zBuf iAmt 0 in
                (rc, set_pReal (f, CallWrite zBuf iAmt 0 :: snd (pReal p1)) p1))) /\
  (forall (p q0 : sqlcipherVfs_file memfile) (data : buffer) (s : Z),
     pReal p = empty_file s ->
     use_header p = true -> needs_write p = true -> reserve_sz p = s ->
     SQLCIPHER_FULL_HDR_SZ <= s < 2 ^ 31 ->
     is_u32 (version p) -> is_u32 (page_sz p) -> is_u32 (kdf_iter p) ->
     is_u32 (fast_kdf_iter p) -> is_u32 (flags p) ->
     is_int (Z.of_nat (length data)) ->
     exists p3,
       sqlcipherVfsWrite mem_methods p data (Z.of_nat (length data)) 0
         = Ret (SQLITE_OK, p3) /\
       needs_write p3 = false /\
       content (pReal p3) = layout_of p ++ data /\
       Z.of_nat (length (content (pReal p3))) = Z.of_nat (length data) + s /\
       exists p4,
         sqlcipherVfsOpen mem_methods true (SQLITE_OK, Some (pReal p3)) q0
           = Ret (SQLITE_OK, p4) /\
         use_header p4 = true /\ reserve_sz p4 = s /\
         sqlcipherVfsFileSize mem_methods p4
           = (SQLITE_OK, Z.of_nat (length data), p4) /\
         sqlcipherVfsRead mem_methods p4 (Z.of_nat (length data)) 0
           = (SQLITE_OK, data, p4)).
Proof.
  intros Hrd Hrc Hfs Hss. split.
  - set (tr := [CallSectorSize; CallFileSize; CallRead SQLCIPHER_MIN_HDR_SZ 0] ++ snd s0).
    exists (pending_creation (f3, tr) ss p0).
    split.
    { unfold sqlcipherVfsOpen.
      rewrite (read_header_new (traced M) (set_pReal s0 p0) rc1 ss got
                 (f1, CallRead SQLCIPHER_MIN_HDR_SZ 0 :: snd s0)
                 (f2, CallFileSize :: CallRead SQLCIPHER_MIN_HDR_SZ 0 :: snd s0)
                 (f3, tr)); auto.
      - cbn [xRead traced pReal set_pReal]. rewrite Hrd. reflexivity.
      - cbn [xFileSize traced fst snd]. rewrite Hfs. reflexivity.
      - cbn [xSectorSize traced fst snd]. rewrite Hss. reflexivity. }
    do 4 (split; [reflexivity|]).
    intros zBuf iAmt.
    assert (Hd : header_write_due (pending_creation (f3, tr) ss p0) 0 = false)
      by reflexivity.
    split; [exact Hd|].
    rewrite write_not_due by exact Hd.
    change (header_shift (pending_creation (f3, tr) ss p0)) with 0.
    change (add_i64 0 0) with 0.
    cbn [xWrite traced pReal pending_creation set_needs_write set_flags3
         set_reserve_sz set_pReal fst snd].
    destruct (xWrite M f3 zBuf iAmt 0) as [rc f]. reflexivity.
  - intros p q0 data s. apply first_write_materializes.
Qed.

Lemma new_file_header_witness :
  let s0 := (empty_file 4096, @nil call) in
  let p := pending_header 4096 in
  (exists p1,
     sqlcipherVfsOpen (traced mem_methods) true (SQLITE_OK, Some s0) (blank_file s0)
       = Ret (SQLITE_OK, p1) /\
     reserve_sz p1 = 4096 /\ needs_write p1 = true /\ use_header p1 = false /\
     exists p2,
       sqlcipherVfsWrite (traced mem_methods) p1 hundred_bytes 100 0
         = Ret (SQLITE_OK, p2) /\
       content (fst (pReal p2)) = hundred_bytes /\
       snd (pReal p2)
         = [CallWrite hundred_bytes 100 0; CallSectorSize; CallFileSize; CallRead 36 0]) /\
  (exists p3 p4,
     sqlcipherVfsWrite mem_methods p hundred_bytes 100 0 = Ret (SQLITE_OK, p3) /\
     content (pReal p3) = layout_of p ++ hundred_bytes /\
     Z.of_nat (length (content (pReal p3))) = 4196 /\
     sqlcipherVfsOpen mem_methods true (SQLITE_OK, Some (pReal p3)) (blank_file (pReal p))
       = Ret (SQLITE_OK, p4) /\
     reserve_sz p4 = 4096 /\
     sqlcipherVfsFileSize mem_methods p4 = (SQLITE_OK, 100, p4) /\
     sqlcipherVfsRead mem_methods p4 100 0 = (SQLITE_OK, hundred_bytes, p4)).
Proof.
  intros s0 p.
  destruct (new_file_header mem_methods s0 (blank_file s0) SQLITE_OK
              SQLITE_IOERR_SHORT_READ 4096 (repeat Byte.x00 36)
              (empty_file 4096) (empty_file 4096) (empty_file 4096))
    as [(p1 & Ho & Hr & Hn & Hu & Hreal & Hw) Hmat].
  - reflexivity.
  - vm_compute. discriminate.
  - reflexivity.
  - reflexivity.
  - split.
    2:{ destruct (Hmat p (blank_file (pReal p)) hundred_bytes 4096)
          as (p3 & Hw3 & _ & Hc & Hl & p4 & Ho4 & _ & Hr4 & Hfs & Hrd);
          try reflexivity; try (unfold is_u32; cbn; lia).
        - unfold SQLCIPHER_FULL_HDR_SZ; lia.
        - unfold is_int; cbn; lia.
        - exists p3, p4. repeat (split; [assumption|]). exact Hrd. }
    exists p1. split; [exact Ho|]. split; [exact Hr|]. split; [exact Hn|].
    split; [exact Hu|].
    destruct (Hw hundred_bytes 100) as [_ Hwr].
    eexists. split; [exact Hwr|]. rewrite Hreal. split; reflexivity.
Defined.

(** C1, counterexample. A new file on a device with 4096-byte sectors: the
    open leaves use_header false, and the first write of 100 bytes at
    logical offset 0 puts them at real offset 0 of a file that is then 100
    bytes long, not 4196. *)
Lemma new_file_header_inactive :
  let f := empty_file 4096 in
  fst (xFileSize mem_methods f) = (SQLITE_OK, 0) /\
  exists p1 p2,
    sqlcipherVfsOpen mem_methods true (SQLITE_OK, Some f) (blank_file f) = Ret (SQLITE_OK, p1) /\
    use_header p1 = false /\
    reserve_sz p1 = 4096 /\ needs_write p1 = true /\
    sqlcipherVfsWrite mem_methods p1 hundred_bytes 100 0 = Ret (SQLITE_OK, p2) /\
    content (pReal p2) = hundred_bytes /\
    Z.of_nat (length (content (pReal p2))) <> 100 + 4096.
Proof.
  intros f. split; [reflexivity|].
  eexists _, _. split; [vm_compute; reflexivity|].
  split; [reflexivity|]. split; [reflexivity|]. split; [reflexivity|].
  split; [vm_compute; reflexivity|].
  split; [reflexivity|]. vm_compute. discriminate.
Qed.

(** ** Registration *)

Lemma vfsUnlink_fresh (a : nat) (l : list sqlite3_vfs) :
  Forall (fun v => (vfs_addr v < a)%nat) l -> vfsUnlink a l = l.
Proof.
  induction 1 as [|v l Hv _ IH]; cbn; [reflexivity|].
  destruct (Nat.eqb_spec (vfs_addr v) a); [lia|]. rewrite IH. reflexivity.
Qed.

Lemma find_none_count (n : string) (g : sqlite3_global) :
  sqlite3_vfs_find g (Some n) = None -> count_name n g = 0%nat.
Proof.
  unfold sqlite3_vfs_find, count_name. generalize (vfsList g).
  induction l as [|v l IH]; cbn; [reflexivity|].
  destruct (String.eqb n (zName v)); [discriminate|]. exact IH.
Qed.

Section RegisterProps.
Variable sizeof_file : Z.

Local Abbreviation register := (sqlcipherVfs_register sizeof_file).

Lemma register_again (g : sqlite3_global) (pNew : sqlite3_vfs)
  (rest : list sqlite3_vfs) (zOldVfsName : option string) :
  vfsList g = pNew :: rest ->
  zName pNew = newVfsName ->
  register g zOldVfsName = (SQLITE_OK, g).
Proof.
  intros Hl Hn. unfold sqlcipherVfs_register, sqlite3_vfs_find.
  rewrite Hl. cbn [find]. rewrite Hn, String.eqb_refl.
  unfold sqlite3_vfs_register. rewrite Hl. cbn [vfsUnlink].
  rewrite Nat.eqb_refl. destruct g as [l na ml]. cbn in *. subst l.
  destruct rest; reflexivity.
Qed.

(** C9 (as the code has it). While no provider carries the shim's name:
    register fails with SQLITE_NOTFOUND and leaves the registry as it was
    when no provider of the given name is registered; it fails with
    SQLITE_NOMEM, again leaving the registry as it was, when the provider is
    found and the allocation fails; otherwise it succeeds, and the shim is
    then the default provider and the only one of its name.  A second call
    after that, with any name, succeeds and leaves the registry as the first
    call made it, with exactly one provider of the shim's name. *)
Theorem register_outcomes (g : sqlite3_global) (zOldVfsName : option string) :
  registry_wf g ->
  sqlite3_vfs_find g (Some newVfsName) = None ->
  (sqlite3_vfs_find g zOldVfsName = None ->
   register g zOldVfsName = (SQLITE_NOTFOUND, g)) /\
  (forall pRoot,
     sqlite3_vfs_find g zOldVfsName = Some pRoot ->
     (malloc_left g = 0%nat -> register g zOldVfsName = (SQLITE_NOMEM, g)) /\
     (malloc_left g <> 0%nat ->
      exists g1,
        register g zOldVfsName = (SQLITE_OK, g1) /\
        vfsList g1 = shim_vfs sizeof_file (next_addr g) pRoot :: vfsList g /\
        count_name newVfsName g1 = 1%nat /\
        forall again,
          register g1 again = (SQLITE_OK, g1))).
Proof.
  intros Hwf Hshim. split.
  - intros Hroot. unfold sqlcipherVfs_register. rewrite Hshim, Hroot. reflexivity.
  - intros pRoot Hroot. split.
    + intros Hm. unfold sqlcipherVfs_register, sqlite3_malloc.
      rewrite Hshim, Hroot, Hm. reflexivity.
    + intros Hm.
      destruct (malloc_left g) as [|n] eqn:Hml; [contradiction|].
      exists {| vfsList := shim_vfs sizeof_file (next_addr g) pRoot :: vfsList g;
                next_addr := S (next_addr g); malloc_left := n |}.
      split.
      * unfold sqlcipherVfs_register, sqlite3_malloc.
        rewrite Hshim, Hroot, Hml.
        unfold sqlite3_vfs_register.
        cbn [vfsList next_addr malloc_left vfs_addr shim_vfs].
        rewrite (vfsUnlink_fresh (next_addr g) (vfsList g) Hwf).
        destruct (vfsList g); reflexivity.
      * cbn [vfsList]. split; [reflexivity|]. split.
        -- unfold count_name. cbn [vfsList filter zName shim_vfs].
           rewrite String.eqb_refl. cbn [length]. f_equal.
           apply (find_none_count newVfsName g Hshim).
        -- intros again.
           apply (register_again _ (shim_vfs sizeof_file (next_addr g) pRoot)
                    (vfsList g)); reflexivity.
Qed.

End RegisterProps.

Lemma register_outcomes_witness :
  sqlcipherVfs_register 96 boot_registry (Some "nope"%string)
    = (SQLITE_NOTFOUND, boot_registry) /\
  sqlcipherVfs_register 96 starved_registry (Some "unix"%string)
    = (SQLITE_NOMEM, starved_registry) /\
  exists g1,
    sqlcipherVfs_register 96 boot_registry (Some "unix"%string) = (SQLITE_OK, g1) /\
    count_name newVfsName g1 = 1%nat /\
    sqlcipherVfs_register 96 g1 (Some "unix"%string) = (SQLITE_OK, g1).
Proof.
  assert (Hwf : registry_wf boot_registry)
    by (repeat constructor).
  assert (Hwf' : registry_wf starved_registry)
    by (repeat constructor).
  split; [|split].
  - apply (register_outcomes 96 boot_registry (Some "nope"%string) Hwf eq_refl).
    reflexivity.
  - destruct (register_outcomes 96 starved_registry (Some "unix"%string) Hwf' eq_refl)
      as [_ H].
    apply (H unix_vfs eq_refl). reflexivity.
  - destruct (register_outcomes 96 boot_registry (Some "unix"%string) Hwf eq_refl)
      as [_ H].
    destruct (H unix_vfs eq_refl) as [_ H1].
    destruct H1 as (g1 & Hreg & _ & Hcnt & Hagain); [discriminate|].
    exists g1. split; [exact Hreg|]. split; [exact Hcnt|]. apply Hagain.
Defined.

(** C9, counterexample. Once the shim is registered, register with a name
    no provider carries returns SQLITE_OK, not SQLITE_NOTFOUND. *)
Lemma register_unknown_after_first :
  let g1 := snd (sqlcipherVfs_register 96 boot_registry (Some "unix"%string)) in
  sqlite3_vfs_find g1 (Some "nope"%string) = None /\
  sqlcipherVfs_register 96 g1 (Some "nope"%string) = (SQLITE_OK, g1) /\
  SQLITE_OK <> SQLITE_NOTFOUND.
Proof.
  intros g1. split; [reflexivity|]. split; [reflexivity|]. discriminate.
Qed.

(** * Further properties *)

(** ** Decoded values and buffer lengths *)

Lemma be_value_range (b0 b1 b2 b3 : Z) :
  0 <= b0 < 2 ^ 8 -> 0 <= b1 < 2 ^ 8 -> 0 <= b2 < 2 ^ 8 -> 0 <= b3 < 2 ^ 8 ->
  is_u32 (Z.lor (Z.lor (Z.lor (Z.shiftl b0 24) (Z.shiftl b1 16)) (Z.shiftl b2 8)) b3).
Proof.
  intros H0 H1 H2 H3.
  set (x := Z.lor _ _).
  assert (Hx : x mod 2 ^ 32 = x).
  { subst x.
    rewrite <- (Z.mod_small b0 (2 ^ 8)) by lia.
    rewrite <- (Z.mod_small b1 (2 ^ 8)) by lia.
    rewrite <- (Z.mod_small b2 (2 ^ 8)) by lia.
    rewrite <- (Z.mod_small b3 (2 ^ 8)) by lia.
    rewrite <- !Z.land_ones by lia.
    clear. Z.bitblast. }
  unfold is_u32. rewrite <- Hx. apply Z.mod_pos_bound. lia.
Qed.

Lemma get4_value (p : buffer) (off v : Z) :
  sqlite3Get4byte p off = Ret v -> is_u32 v.
Proof.
  unfold sqlite3Get4byte. destruct (in_bounds p off 4); [|discriminate].
  intros H.
  apply (f_equal (fun r => match r with Ret a => a | Crash _ => 0 end)) in H.
  cbv beta iota in H. subst v.
  apply be_value_range; apply byte.unsigned_range.
Qed.

Lemma get4_returns (p : buffer) (off : Z) :
  0 <= off -> off + 4 <= Z.of_nat (length p) ->
  exists v, sqlite3Get4byte p off = Ret v /\ is_u32 v.
Proof.
  intros H0 H1.
  destruct (sqlite3Get4byte p off) as [v|e] eqn:E.
  - exists v. split; [reflexivity|]. apply (get4_value p off). exact E.
  - unfold sqlite3Get4byte in E. rewrite in_bounds_true in E by lia. discriminate.
Qed.

Lemma get4_overrun (p : buffer) (off : Z) :
  Z.of_nat (length p) < off + 4 -> sqlite3Get4byte p off = Crash BufferOverrun.
Proof.
  intros H. unfold sqlite3Get4byte. rewrite in_bounds_false by exact H. reflexivity.
Qed.

Lemma length_read_into (buf got : list byte) :
  length (read_into buf got) = length buf.
Proof.
  unfold read_into. rewrite length_firstn, length_app, length_skipn. lia.
Qed.

Lemma unpack_returns {F : Type} (q : sqlcipherVfs_file F) (header : buffer) :
  56 <= Z.of_nat (length header) ->
  exists v ps k fk fl,
    is_u32 v /\ is_u32 ps /\ is_u32 k /\ is_u32 fk /\ is_u32 fl /\
    unpack_header q header
    = Ret (set_flags3 true (needs_write q) true (set_fields v ps k fk fl q)).
Proof.
  intros Hl. unfold unpack_header.
  destruct (get4_returns header 36) as (v & -> & Hv); try lia.
  destruct (get4_returns header 40) as (ps & -> & Hps); try lia.
  destruct (get4_returns header 44) as (k & -> & Hk); try lia.
  destruct (get4_returns header 48) as (fk & -> & Hfk); try lia.
  destruct (get4_returns header 52) as (fl & -> & Hfl); try lia.
  exists v, ps, k, fk, fl. repeat (split; [assumption|]). reflexivity.
Qed.

Lemma get4_crash_kind (p : buffer) (off : Z) (e : fault) :
  sqlite3Get4byte p off = Crash e -> e = BufferOverrun.
Proof.
  unfold sqlite3Get4byte. destruct (in_bounds p off 4); congruence.
Qed.

Lemma unpack_overrun {F : Type} (q : sqlcipherVfs_file F) (header : buffer) :
  Z.of_nat (length header) < 56 ->
  unpack_header q header = Crash BufferOverrun.
Proof.
  intros Hl. unfold unpack_header.
  destruct (sqlite3Get4byte header 36) as [v|e] eqn:E1;
    [|apply get4_crash_kind in E1; subst; reflexivity].
  destruct (sqlite3Get4byte header 40) as [ps|e] eqn:E2;
    [|apply get4_crash_kind in E2; subst; reflexivity].
  destruct (sqlite3Get4byte header 44) as [k|e] eqn:E3;
    [|apply get4_crash_kind in E3; subst; reflexivity].
  destruct (sqlite3Get4byte header 48) as [fk|e] eqn:E4;
    [|apply get4_crash_kind in E4; subst; reflexivity].
  cbn [bind]. rewrite get4_overrun by lia. reflexivity.
Qed.

(** ** The outcomes of header detection *)

Lemma peek_reserve_returns (got : list byte) :
  exists r,
    sqlite3Get4byte (read_into (repeat Byte.x00 (Z.to_nat SQLCIPHER_MIN_HDR_SZ)) got) 32
    = Ret r /\ is_u32 r.
Proof.
  apply get4_returns; [lia|].
  rewrite length_read_into, repeat_length. cbn. lia.
Qed.

(** Every run of header detection takes one of six paths. *)
Lemma read_header_cases {F : Type} (M : sqlite3_io_methods F)
  (p : sqlcipherVfs_file F) :
  exists rc1 got f1,
    xRead M (pReal p) SQLCIPHER_MIN_HDR_SZ 0 = (rc1, got, f1) /\
    ((rc1 = SQLITE_OK /\
      memcmp_eq (read_into (repeat Byte.x00 (Z.to_nat SQLCIPHER_MIN_HDR_SZ)) got)
        sqlcipherMagic SQLCIPHER_MAGIC_SZ = false /\
      sqlcipherVfsReadHeader M p = Ret (SQLITE_OK, headerless f1 p))
     \/
     (rc1 = SQLITE_OK /\
      memcmp_eq (read_into (repeat Byte.x00 (Z.to_nat SQLCIPHER_MIN_HDR_SZ)) got)
        sqlcipherMagic SQLCIPHER_MAGIC_SZ = true /\
      exists r rc2 got2 f2,
        sqlite3Get4byte
          (read_into (repeat Byte.x00 (Z.to_nat SQLCIPHER_MIN_HDR_SZ)) got) 32 = Ret r /\
        is_u32 r /\
        xRead M f1 (int_of_u32 r) 0 = (rc2, got2, f2) /\
        ((rc2 <> SQLITE_OK /\
          sqlcipherVfsReadHeader M p = Ret (SQLITE_OK, stale_reserve f2 r p))
         \/
         (rc2 = SQLITE_OK /\ r < SQLCIPHER_FULL_HDR_SZ /\
          sqlcipherVfsReadHeader M p = Crash BufferOverrun)
         \/
         (rc2 = SQLITE_OK /\ SQLCIPHER_FULL_HDR_SZ <= r /\
          exists v ps k fk fl,
            is_u32 v /\ is_u32 ps /\ is_u32 k /\ is_u32 fk /\ is_u32 fl /\
            sqlcipherVfsReadHeader M p
            = Ret (SQLITE_OK,
                   {| pReal := f2; use_header := true; needs_write := false;
                      did_read := true; reserve_sz := r; version := v;
                      page_sz := ps; kdf_iter := k; fast_kdf_iter := fk;
                      flags := fl |}))))
     \/
     (rc1 <> SQLITE_OK /\
      exists rc3 fsize f3,
        xFileSize M f1 = (rc3, fsize, f3) /\
        ((rc3 = SQLITE_OK /\ fsize = 0 /\
          exists ss f4,
            xSectorSize M f3 = (ss, f4) /\
            sqlcipherVfsReadHeader M p = Ret (SQLITE_OK, pending_creation f4 ss p))
         \/
         ((rc3 <> SQLITE_OK \/ fsize <> 0) /\
          sqlcipherVfsReadHeader M p = Ret (SQLITE_OK, unresolved f3 p))))).
Proof.
  unfold SQLCIPHER_FULL_HDR_SZ.
  destruct (xRead M (pReal p) SQLCIPHER_MIN_HDR_SZ 0) as [[rc1 got] f1] eqn:Hrd.
  exists rc1, got, f1. split; [reflexivity|].
  destruct (Z.eq_dec rc1 SQLITE_OK) as [->|Hrc1].
  - destruct (memcmp_eq (read_into (repeat Byte.x00 (Z.to_nat SQLCIPHER_MIN_HDR_SZ)) got)
                sqlcipherMagic SQLCIPHER_MAGIC_SZ) eqn:Hcmp.
    + right. left. split; [reflexivity|]. split; [reflexivity|].
      destruct (peek_reserve_returns got) as (r & Hget & Hr).
      destruct (xRead M f1 (int_of_u32 r) 0) as [[rc2 got2] f2] eqn:Hrd2.
      exists r, rc2, got2, f2.
      split; [exact Hget|]. split; [exact Hr|]. split; [exact Hrd2|].
      assert (Hstep : sqlcipherVfsReadHeader M p
                = if rc2 =? SQLITE_OK then
                    q <- unpack_header
                           (set_pReal f2 (set_reserve_sz r (unresolved f1 p)))
                           (read_into (sqlcipher_malloc r) got2) ;;
                    Ret (SQLITE_OK, q)
                  else Ret (SQLITE_OK, stale_reserve f2 r p)).
      { unfold sqlcipherVfsReadHeader.
        change (pReal (set_flags3 false false false p)) with (pReal p).
        rewrite Hrd. change (SQLITE_OK =? SQLITE_OK) with true. cbv iota.
        rewrite Hcmp, Hget. cbn [bind].
        change (reserve_sz (set_reserve_sz r (set_pReal f1 (set_flags3 false false false p))))
          with r.
        change (pReal (set_reserve_sz r (set_pReal f1 (set_flags3 false false false p))))
          with f1.
        rewrite Hrd2. reflexivity. }
      assert (Hlen : Z.of_nat (length (read_into (sqlcipher_malloc r) got2)) = r).
      { rewrite length_read_into. unfold sqlcipher_malloc. rewrite repeat_length.
        unfold is_u32 in Hr. lia. }
      destruct (Z.eq_dec rc2 SQLITE_OK) as [->|Hrc2].
      * change (SQLITE_OK =? SQLITE_OK) with true in Hstep. cbv iota in Hstep.
        right. destruct (Z.lt_ge_cases r 56) as [Hlt|Hge].
        -- left. split; [reflexivity|]. split; [exact Hlt|].
           rewrite Hstep, unpack_overrun by lia. reflexivity.
        -- right. split; [reflexivity|]. split; [exact Hge|].
           destruct (unpack_returns
                       (set_pReal f2 (set_reserve_sz r (unresolved f1 p)))
                       (read_into (sqlcipher_malloc r) got2))
             as (v & ps & k & fk & fl & Hv & Hps & Hk & Hfk & Hfl & Hun); [lia|].
           exists v, ps, k, fk, fl. repeat (split; [assumption|]).
           rewrite Hstep, Hun. reflexivity.
      * left. split; [exact Hrc2|]. rewrite Hstep.
        apply Z.eqb_neq in Hrc2. rewrite Hrc2. reflexivity.
    + left. split; [reflexivity|]. split; [reflexivity|].
      unfold sqlcipherVfsReadHeader.
      change (pReal (set_flags3 false false false p)) with (pReal p).
      rewrite Hrd. change (SQLITE_OK =? SQLITE_OK) with true. cbv iota.
      rewrite Hcmp. reflexivity.
  - right. right. split; [exact Hrc1|].
    destruct (xFileSize M f1) as [[rc3 fsize] f3] eqn:Hfs.
    exists rc3, fsize, f3. split; [reflexivity|].
    destruct (Z.eq_dec rc3 SQLITE_OK) as [->|Hrc3];
      [destruct (Z.eq_dec fsize 0) as [->|Hsz]|].
    + left. split; [reflexivity|]. split; [reflexivity|].
      destruct (xSectorSize M f3) as [ss f4] eqn:Hss.
      exists ss, f4. split; [reflexivity|].
      apply (read_header_new M p rc1 ss got f1 f3 f4); assumption.
    + right. split; [right; exact Hsz|].
      apply (read_header_unresolved M p rc1 SQLITE_OK fsize got f1 f3); auto.
    + right. split; [left; exact Hrc3|].
      apply (read_header_unresolved M p rc1 rc3 fsize got f1 f3); auto.
Qed.

Lemma traced_read {F : Type} (M : sqlite3_io_methods F) (s s' : F * list call)
  (iAmt iOfst rc : Z) (got : list byte) :
  xRead (traced M) s iAmt iOfst = (rc, got, s') ->
  snd s' = CallRead iAmt iOfst :: snd s.
Proof.
  cbn [xRead traced]. destruct (xRead M (fst s) iAmt iOfst) as [[rc' got'] f].
  intros H. injection H as _ _ <-. reflexivity.
Qed.

Lemma traced_file_size {F : Type} (M : sqlite3_io_methods F) (s s' : F * list call)
  (rc sz : Z) :
  xFileSize (traced M) s = (rc, sz, s') -> snd s' = CallFileSize :: snd s.
Proof.
  cbn [xFileSize traced]. destruct (xFileSize M (fst s)) as [[rc' sz'] f].
  intros H. injection H as _ _ <-. reflexivity.
Qed.

Lemma traced_sector_size {F : Type} (M : sqlite3_io_methods F) (s s' : F * list call)
  (ss : Z) :
  xSectorSize (traced M) s = (ss, s') -> snd s' = CallSectorSize :: snd s.
Proof.
  cbn [xSectorSize traced]. destruct (xSectorSize M (fst s)) as [ss' f].
  intros H. injection H as _ <-. reflexivity.
Qed.

Lemma open_some {F : Type} (M : sqlite3_io_methods F) (malloc_ok : bool)
  (rc0 rc : Z) (f : F) (p0 p' : sqlcipherVfs_file F) :
  sqlcipherVfsOpen M malloc_ok (rc0, Some f) p0 = Ret (rc, p') ->
  malloc_ok = true /\ rc = rc0 /\
  exists rc1, sqlcipherVfsReadHeader M (set_pReal f p0) = Ret (rc1, p').
Proof.
  unfold sqlcipherVfsOpen. destruct malloc_ok; [|discriminate].
  destruct (sqlcipherVfsReadHeader M (set_pReal f p0)) as [[rc1 q]|e]; [|discriminate].
  cbn [bind snd]. intros H. injection H as <- <-. split; [reflexivity|].
  split; [reflexivity|]. exists rc1. reflexivity.
Qed.

(** X1. An open that returns gives back the root provider's status, and all
    it did to the underlying file is ask: at most three calls, each a read,
    a size query or a sector-size query, never a write or a truncate. *)
Theorem open_only_queries {F : Type} (M : sqlite3_io_methods F)
  (malloc_ok : bool)
  (s : F * list call) (p0 p' : sqlcipherVfs_file (F * list call)) (rc0 rc : Z) :
  sqlcipherVfsOpen (traced M) malloc_ok (rc0, Some s) p0 = Ret (rc, p') ->
  rc = rc0 /\
  exists calls,
    snd (pReal p') = calls ++ snd s /\
    forallb is_query calls = true /\
    (1 <= length calls <= 3)%nat.
Proof.
  intros Ho. destruct (open_some _ _ _ _ _ _ _ Ho) as (_ & -> & rc1 & Hrh).
  split; [reflexivity|].
  destruct (read_header_cases (traced M) (set_pReal s p0))
    as (r1 & got & f1 & Hrd & Hcases).
  change (pReal (set_pReal s p0)) with s in Hrd.
  pose proof (traced_read M _ _ _ _ _ _ Hrd) as T1.
  destruct Hcases as [(_ & _ & E) | [(_ & _ & r & rc2 & got2 & f2 & _ & _ & Hrd2 & C)
                                    | (_ & rc3 & fsize & f3 & Hfs & C)]].
  - rewrite E in Hrh. injection Hrh as _ <-.
    exists [CallRead SQLCIPHER_MIN_HDR_SZ 0]. cbn. rewrite T1. repeat split; lia.
  - pose proof (traced_read M _ _ _ _ _ _ Hrd2) as T2.
    exists [CallRead (int_of_u32 r) 0; CallRead SQLCIPHER_MIN_HDR_SZ 0].
    destruct C as [(_ & E) | [(_ & _ & E) | (_ & _ & v & ps & k & fk & fl & _ & _ & _ & _ & _ & E)]];
      rewrite E in Hrh; [|discriminate|]; injection Hrh as _ <-;
      cbn; rewrite T2, T1; repeat split; lia.
  - pose proof (traced_file_size M _ _ _ _ Hfs) as T2.
    destruct C as [(_ & _ & ss & f4 & Hss & E) | (_ & E)];
      rewrite E in Hrh; injection Hrh as _ <-.
    + pose proof (traced_sector_size M _ _ _ Hss) as T3.
      exists [CallSectorSize; CallFileSize; CallRead SQLCIPHER_MIN_HDR_SZ 0].
      cbn. rewrite T3, T2, T1. repeat split; lia.
    + exists [CallFileSize; CallRead SQLCIPHER_MIN_HDR_SZ 0].
      cbn. rewrite T2, T1. repeat split; lia.
Qed.

Lemma open_only_queries_witness :
  let s := (empty_file 4096, @nil call) in
  exists p',
    sqlcipherVfsOpen (traced mem_methods) true (SQLITE_OK, Some s) (blank_file s)
      = Ret (SQLITE_OK, p') /\
    exists calls,
      snd (pReal p') = calls ++ [] /\ forallb is_query calls = true /\
      (1 <= length calls <= 3)%nat.
Proof.
  intros s.
  destruct (sqlcipherVfsOpen (traced mem_methods) true (SQLITE_OK, Some s) (blank_file s))
    as [[rc p']|e] eqn:Ho; [|vm_compute in Ho; discriminate].
  destruct (open_only_queries mem_methods true s (blank_file s) p' SQLITE_OK rc Ho)
    as (-> & Hcalls).
  exists p'. split; [reflexivity|]. exact Hcalls.
Defined.

(** X2. What every returning open leaves in the handle: did_read equals
    use_header; the header is never both active and pending, so no header
    write is due until the layer above changes the handle; an active header
    has 32-bit fields, and a pending one a 32-bit reserve size. *)
Theorem open_invariant {F : Type} (M : sqlite3_io_methods F) (malloc_ok : bool)
  (f : F) (p0 p' : sqlcipherVfs_file F) (rc0 rc : Z) :
  sqlcipherVfsOpen M malloc_ok (rc0, Some f) p0 = Ret (rc, p') ->
  did_read p' = use_header p' /\
  (needs_write p' = true -> use_header p' = false) /\
  (forall iOfst, header_write_due p' iOfst = false) /\
  (use_header p' = true -> fields_u32 p') /\
  (needs_write p' = true -> is_u32 (reserve_sz p')).
Proof.
  intros Ho. destruct (open_some _ _ _ _ _ _ _ Ho) as (_ & _ & rc1 & Hrh).
  destruct (read_header_cases M (set_pReal f p0))
    as (r1 & got & f1 & Hrd & Hcases).
  assert (Hmod : forall z, is_u32 (u32_of_int z))
    by (intros z; unfold is_u32, u32_of_int; apply Z.mod_pos_bound; lia).
  destruct Hcases as [(_ & _ & E) | [(_ & _ & r & rc2 & got2 & f2 & _ & Hr & _ & C)
                                    | (_ & rc3 & fsize & f3 & _ & C)]].
  - rewrite E in Hrh. injection Hrh as _ <-.
    cbn. repeat split; try discriminate; reflexivity.
  - destruct C as [(_ & E) | [(_ & _ & E) | (_ & Hge & v & ps & k & fk & fl & Hv & Hps & Hk & Hfk & Hfl & E)]];
      rewrite E in Hrh; [|discriminate|]; injection Hrh as _ <-.
    + cbn. repeat split; try discriminate; reflexivity.
    + split; [reflexivity|]. split; [discriminate|].
      split; [intros o; unfold header_write_due; cbn [needs_write]; apply andb_false_r|].
      split; [|discriminate]. intros _.
      unfold fields_u32. cbn [reserve_sz version page_sz kdf_iter fast_kdf_iter flags].
      tauto.
  - destruct C as [(_ & _ & ss & f4 & _ & E) | (_ & E)];
      rewrite E in Hrh; injection Hrh as _ <-.
    + cbn. repeat split; try discriminate; try apply Hmod.
    + cbn. repeat split; try discriminate; reflexivity.
Qed.

Lemma open_invariant_witness :
  let f := stored_file (layout_of (sample_header (empty_file 64))) 64 in
  exists p',
    sqlcipherVfsOpen mem_methods true (SQLITE_OK, Some f) (blank_file f) = Ret (SQLITE_OK, p') /\
    use_header p' = true /\ did_read p' = true /\
    header_write_due p' 0 = false /\ fields_u32 p'.
Proof.
  intros f.
  destruct (sqlcipherVfsOpen mem_methods true (SQLITE_OK, Some f) (blank_file f))
    as [[rc p']|e] eqn:Ho; vm_compute in Ho; [|discriminate].
  pose proof (open_invariant mem_methods true f (blank_file f) p' SQLITE_OK rc Ho)
    as (Hd & _ & Hdue & Hact & _).
  injection Ho as <- <-.
  eexists. split; [reflexivity|].
  split; [reflexivity|]. split; [reflexivity|]. split; [apply Hdue|].
  apply Hact. reflexivity.
Defined.

(** X4. A file that starts with the magic but is shorter than the reserve
    size stored in it (the read of the full header fails) is opened as
    headerless: the header stays inactive and nothing is pending, so offsets
    are not shifted, while reserve_sz keeps the stored value. *)
Theorem truncated_header_is_headerless {F : Type} (M : sqlite3_io_methods F)
  (p : sqlcipherVfs_file F) (r rc2 : Z) (got2 : list byte) (f1 f2 : F) :
  is_u32 r ->
  xRead M (pReal p) SQLCIPHER_MIN_HDR_SZ 0 = (SQLITE_OK, sqlcipherMagic ++ be32 r, f1) ->
  xRead M f1 (int_of_u32 r) 0 = (rc2, got2, f2) ->
  rc2 <> SQLITE_OK ->
  exists p',
    sqlcipherVfsReadHeader M p = Ret (SQLITE_OK, p') /\
    pReal p' = f2 /\
    use_header p' = false /\ needs_write p' = false /\ did_read p' = false /\
    reserve_sz p' = r /\ header_shift p' = 0 /\
    forall iOfst, header_write_due p' iOfst = false.
Proof.
  intros Hr Hrd Hrd2 Hrc2.
  exists (stale_reserve f2 r p). split.
  - unfold sqlcipherVfsReadHeader.
    change (pReal (set_flags3 false false false p)) with (pReal p).
    rewrite Hrd. change (SQLITE_OK =? SQLITE_OK) with true. cbv iota.
    rewrite read_into_exact by (rewrite repeat_length; reflexivity).
    rewrite peek_magic, (peek_reserve r Hr).
    cbn [bind set_reserve_sz set_pReal set_flags3 reserve_sz pReal].
    rewrite Hrd2. apply Z.eqb_neq in Hrc2. rewrite Hrc2. reflexivity.
  - repeat split.
Qed.

Lemma truncated_header_is_headerless_witness :
  exists p',
    sqlcipherVfsOpen mem_methods true (SQLITE_OK, Some truncated_header_file)
      (blank_file truncated_header_file) = Ret (SQLITE_OK, p') /\
    use_header p' = false /\ reserve_sz p' = 4096 /\ header_shift p' = 0.
Proof.
  destruct (truncated_header_is_headerless mem_methods
              (blank_file truncated_header_file) 4096 SQLITE_IOERR_SHORT_READ
              (content truncated_header_file ++ repeat Byte.x00 4060)
              truncated_header_file truncated_header_file)
    as (p' & Hrh & _ & Hu & _ & _ & Hr & Hs & _).
  - unfold is_u32; lia.
  - reflexivity.
  - vm_compute. reflexivity.
  - vm_compute. discriminate.
  - exists p'. split.
    + unfold sqlcipherVfsOpen.
      change (set_pReal truncated_header_file (blank_file truncated_header_file))
        with (blank_file truncated_header_file).
      rewrite Hrh. reflexivity.
    + auto.
Defined.

(** ** What the file methods keep *)

Lemma same_header_set_pReal {F : Type} (f : F) (p : sqlcipherVfs_file F) :
  same_header p (set_pReal f p).
Proof. repeat split. Qed.

(** X5. The reserve size is frozen: no read, write, truncate or size query
    that returns changes use_header, did_read, reserve_sz or any of the five
    stored fields.  Only a write touches needs_write, and only by clearing
    it, which it does exactly when its header write was due. *)
Theorem methods_keep_header {F : Type} (M : sqlite3_io_methods F)
  (p : sqlcipherVfs_file F) :
  (forall iAmt iOfst rc got p',
     sqlcipherVfsRead M p iAmt iOfst = (rc, got, p') ->
     same_header p p' /\ needs_write p' = needs_write p) /\
  (forall size rc p',
     sqlcipherVfsTruncate M p size = (rc, p') ->
     same_header p p' /\ needs_write p' = needs_write p) /\
  (forall rc pSize p',
     sqlcipherVfsFileSize M p = (rc, pSize, p') ->
     same_header p p' /\ needs_write p' = needs_write p) /\
  (forall zBuf iAmt iOfst rc p',
     sqlcipherVfsWrite M p zBuf iAmt iOfst = Ret (rc, p') ->
     same_header p p' /\
     needs_write p' = (if header_write_due p iOfst then false else needs_write p)).
Proof.
  split; [|split; [|split]].
  - intros iAmt iOfst rc got p'. unfold sqlcipherVfsRead.
    destruct (xRead M (pReal p) iAmt (add_i64 iOfst (header_shift p))) as [[rc' got'] f].
    intros H. injection H as _ _ <-. split; [apply same_header_set_pReal|reflexivity].
  - intros size rc p'. unfold sqlcipherVfsTruncate.
    destruct (xTruncate M (pReal p) (add_i64 size (header_shift p))) as [rc' f].
    intros H. injection H as _ <-. split; [apply same_header_set_pReal|reflexivity].
  - intros rc pSize p'. unfold sqlcipherVfsFileSize.
    destruct (xFileSize M (pReal p)) as [[rc' sz] f].
    intros H. injection H as _ _ <-. split; [apply same_header_set_pReal|reflexivity].
  - intros zBuf iAmt iOfst rc p' H.
    destruct (header_write_due p iOfst) eqn:Hd.
    + destruct (pack_header p) as [image|e] eqn:Hp.
      * rewrite (write_due M p image zBuf iAmt iOfst Hd Hp) in H. cbv zeta in H.
        destruct (xWrite M (pReal (after_header_write M p image)) zBuf iAmt
                    (add_i64 iOfst (header_shift p))) as [rc' f].
        injection H as _ <-. repeat split.
      * rewrite (write_due_crash M p zBuf iAmt iOfst e Hd Hp) in H. discriminate.
    + rewrite (write_not_due M p zBuf iAmt iOfst Hd) in H.
      destruct (xWrite M (pReal p) zBuf iAmt (add_i64 iOfst (header_shift p))) as [rc' f].
      injection H as _ <-. repeat split.
Qed.

(** X7. Truncating to a logical size and then asking for the size gives
    that size back, header or no header, over any underlying file that
    reports the size it was truncated to. *)
Theorem truncate_then_file_size {F : Type} (M : sqlite3_io_methods F)
  (p p' : sqlcipherVfs_file F) (size : Z) :
  truncate_sets_size M ->
  is_u32 (reserve_sz p) ->
  0 <= size ->
  is_i64 (size + header_shift p) ->
  sqlcipherVfsTruncate M p size = (SQLITE_OK, p') ->
  exists p'', sqlcipherVfsFileSize M p' = (SQLITE_OK, size, p'').
Proof.
  intros Hlaw Hu Hsz Hofs Ht. unfold sqlcipherVfsTruncate in Ht.
  rewrite add_i64_exact in Ht by exact Hofs.
  destruct (xTruncate M (pReal p) (size + header_shift p)) as [rc f] eqn:Hx.
  injection Ht as -> <-.
  assert (Hsh : 0 <= header_shift p)
    by (unfold header_shift; unfold is_u32 in Hu; destruct (use_header p); lia).
  assert (Hpos : 0 <= size + header_shift p) by lia.
  destruct (Hlaw _ _ _ Hpos Hx) as (f'' & Hfs).
  exists (set_pReal f'' (set_pReal f p)).
  unfold sqlcipherVfsFileSize. cbn [pReal set_pReal use_header reserve_sz].
  rewrite Hfs. unfold header_shift in *.
  destruct (use_header p).
  - replace (reserve_sz p <=? size + reserve_sz p) with true
      by (symmetry; apply Z.leb_le; lia).
    rewrite sub_i64_exact
      by (replace (size + reserve_sz p - reserve_sz p) with size by lia;
          unfold is_i64 in *; unfold is_u32 in Hu; lia).
    do 2 f_equal. lia.
  - do 2 f_equal. lia.
Qed.

Lemma mem_truncate_sets_size : truncate_sets_size mem_methods.
Proof.
  intros f f' size Hsz. cbn [xTruncate xFileSize mem_methods]. unfold mem_truncate.
  destruct (Z.ltb_spec size 0); [lia|].
  intros Heq. injection Heq as <-. eexists. cbn [content].
  rewrite length_firstn, length_app, repeat_length.
  do 2 f_equal. lia.
Qed.

Lemma truncate_then_file_size_witness :
  let f := stored_file (layout_of (sample_header (empty_file 64)) ++ hundred_bytes) 64 in
  exists p' p'',
    sqlcipherVfsTruncate mem_methods (active_header f) 10 = (SQLITE_OK, p') /\
    sqlcipherVfsFileSize mem_methods p' = (SQLITE_OK, 10, p'') /\
    length (content (pReal p')) = 74%nat.
Proof.
  intros f.
  destruct (truncate_then_file_size mem_methods (active_header f)
              (snd (sqlcipherVfsTruncate mem_methods (active_header f) 10)) 10
              mem_truncate_sets_size) as (p'' & Hfs).
  - unfold is_u32; cbn; lia.
  - lia.
  - unfold is_i64; cbn; lia.
  - reflexivity.
  - eexists _, p''. split; [reflexivity|]. split; [exact Hfs|]. reflexivity.
Defined.

(** ** The logical file over an in-memory file *)

Lemma firstn_past {A : Type} (h x : list A) (n : nat) :
  firstn (length h + n) (h ++ x) = h ++ firstn n x.
Proof. apply firstn_app_2. Qed.

Lemma skipn_past {A : Type} (h x : list A) (n : nat) :
  skipn (length h + n) (h ++ x) = skipn n x.
Proof.
  rewrite skipn_app, skipn_all2 by lia.
  replace (length h + n - length h)%nat with n by lia. reflexivity.
Qed.

Lemma splice_past (h x bs : list byte) (off : Z) :
  0 <= off ->
  splice (h ++ x) (off + Z.of_nat (length h)) bs = h ++ splice x off bs.
Proof.
  intros Hoff. unfold splice.
  replace (Z.to_nat (off + Z.of_nat (length h))) with (length h + Z.to_nat off)%nat by lia.
  rewrite firstn_past, <- Nat.add_assoc, skipn_past, <- app_assoc. reflexivity.
Qed.

Lemma to_nat_past (o : Z) (h : nat) :
  0 <= o -> Z.to_nat (o + Z.of_nat h) = (h + Z.to_nat o)%nat.
Proof. lia. Qed.

Lemma pad_past (o a : Z) (h l : nat) :
  0 <= o -> 0 <= a ->
  (Z.to_nat (o + Z.of_nat h + a) - (h + l))%nat = (Z.to_nat (o + a) - l)%nat.
Proof. lia. Qed.

Lemma pad_past' (o : Z) (h l : nat) :
  0 <= o -> (h + Z.to_nat o - (h + l))%nat = (Z.to_nat o - l)%nat.
Proof. lia. Qed.

Lemma size_past_leb (h l : nat) : (Z.of_nat h <=? Z.of_nat (h + l)) = true.
Proof. apply Z.leb_le. lia. Qed.

Lemma size_past_sub (h l : nat) : Z.of_nat (h + l) - Z.of_nat h = Z.of_nat l.
Proof. lia. Qed.

Lemma fits_past (h l : nat) : is_i64 (Z.of_nat (h + l)) -> is_i64 (Z.of_nat l).
Proof. unfold is_i64. lia. Qed.

Section LogicalFile.
Variable hdr : list byte.
Variable lf : memfile.
Variable p : sqlcipherVfs_file memfile.
Hypothesis Hreal : pReal p = with_header hdr lf.
Hypothesis Hactive : use_header p = true.
Hypothesis Hreserve : reserve_sz p = Z.of_nat (length hdr).

Lemma logical_shift : header_shift p = Z.of_nat (length hdr).
Proof. unfold header_shift. rewrite Hactive. exact Hreserve. Qed.

Lemma logical_read_raw (iAmt iOfst : Z) :
  0 <= iOfst ->
  mem_read (with_header hdr lf) iAmt (iOfst + Z.of_nat (length hdr))
  = (fst (mem_read lf iAmt iOfst), with_header hdr lf).
Proof.
  intros Hoff. unfold mem_read.
  replace (iOfst + Z.of_nat (length hdr) <? 0) with false
    by (symmetry; apply Z.ltb_ge; lia).
  replace (iOfst <? 0) with false by (symmetry; apply Z.ltb_ge; lia).
  destruct (iAmt <? 0); [reflexivity|]. cbn [orb content with_header].
  rewrite (to_nat_past iOfst) by assumption.
  rewrite skipn_past.
  destruct (length (firstn (Z.to_nat iAmt) (skipn (Z.to_nat iOfst) (content lf)))
            =? Z.to_nat iAmt)%nat; reflexivity.
Qed.

Lemma logical_store_raw (zBuf : buffer) (iAmt iOfst : Z) (rest : list Z) :
  0 <= iOfst ->
  mem_store (with_header hdr lf) zBuf iAmt (iOfst + Z.of_nat (length hdr)) rest
  = (fst (mem_store lf zBuf iAmt iOfst rest),
     with_header hdr (snd (mem_store lf zBuf iAmt iOfst rest))).
Proof.
  intros Hoff. unfold mem_store.
  replace (iOfst + Z.of_nat (length hdr) <? 0) with false
    by (symmetry; apply Z.ltb_ge; lia).
  replace (iOfst <? 0) with false by (symmetry; apply Z.ltb_ge; lia).
  destruct (Z.ltb_spec iAmt 0) as [Hneg|Hamt]; [reflexivity|].
  cbn [orb]. destruct (Z.of_nat (length zBuf) <? iAmt); [reflexivity|].
  cbn [fst snd with_header content sector wfaults]. unfold with_header.
  cbn [content sector wfaults]. do 2 f_equal.
  rewrite length_app, <- app_assoc, pad_past by assumption.
  apply splice_past. exact Hoff.
Qed.

Lemma logical_write_raw (zBuf : buffer) (iAmt iOfst : Z) :
  0 <= iOfst ->
  mem_write (with_header hdr lf) zBuf iAmt (iOfst + Z.of_nat (length hdr))
  = (fst (mem_write lf zBuf iAmt iOfst),
     with_header hdr (snd (mem_write lf zBuf iAmt iOfst))).
Proof.
  intros Hoff. unfold mem_write. cbn [wfaults with_header].
  destruct (wfaults lf) as [|rc rest].
  - apply logical_store_raw. exact Hoff.
  - destruct (rc =? SQLITE_OK).
    + apply logical_store_raw. exact Hoff.
    + reflexivity.
Qed.

Lemma logical_truncate_raw (size : Z) :
  0 <= size ->
  mem_truncate (with_header hdr lf) (size + Z.of_nat (length hdr))
  = (fst (mem_truncate lf size), with_header hdr (snd (mem_truncate lf size))).
Proof.
  intros Hsz. unfold mem_truncate.
  replace (size + Z.of_nat (length hdr) <? 0) with false
    by (symmetry; apply Z.ltb_ge; lia).
  replace (size <? 0) with false by (symmetry; apply Z.ltb_ge; lia).
  cbn [fst snd with_header content sector wfaults]. unfold with_header.
  cbn [content sector wfaults]. do 2 f_equal.
  rewrite length_app, <- app_assoc, (to_nat_past size) by assumption.
  rewrite firstn_past, (pad_past' size) by assumption. reflexivity.
Qed.

(** X8. With the header active over an in-memory file that holds
    reserve_sz bytes of header followed by a logical file, what the layer
    above sees is the logical file: a read at a logical offset returns the
    status and the bytes a read of the logical file alone returns and leaves
    the file as it is, and the size query reports the logical file's
    length. *)
Theorem header_is_hidden (iAmt iOfst : Z) :
  0 <= iOfst ->
  is_i64 (iOfst + Z.of_nat (length hdr)) ->
  is_i64 (Z.of_nat (length (content (with_header hdr lf)))) ->
  sqlcipherVfsRead mem_methods p iAmt iOfst
    = (fst (mem_read lf iAmt iOfst), set_pReal (with_header hdr lf) p) /\
  sqlcipherVfsFileSize mem_methods p
    = (SQLITE_OK, Z.of_nat (length (content lf)), set_pReal (with_header hdr lf) p).
Proof.
  intros Hoff Hofs Hfit. cbn [content with_header] in Hfit. split.
  - unfold sqlcipherVfsRead. rewrite logical_shift, add_i64_exact by exact Hofs.
    cbn [xRead mem_methods]. rewrite Hreal, logical_read_raw by exact Hoff.
    destruct (mem_read lf iAmt iOfst) as [[rc got] f]. reflexivity.
  - unfold sqlcipherVfsFileSize. cbn [xFileSize mem_methods].
    rewrite Hreal, Hactive, Hreserve. cbn [content with_header].
    rewrite length_app, size_past_leb.
    rewrite length_app in Hfit.
    rewrite sub_i64_exact by (rewrite size_past_sub; exact (fits_past _ _ Hfit)).
    rewrite size_past_sub. reflexivity.
Qed.

(** X9. Under the same conditions, and with no header write due, a write at
    a logical offset and a truncate to a logical size change the logical
    file exactly as they would change it alone, return the same status, and
    leave the header bytes in front of it untouched. *)
Theorem header_is_preserved (zBuf : buffer) (iAmt iOfst : Z) :
  0 <= iOfst ->
  is_i64 (iOfst + Z.of_nat (length hdr)) ->
  needs_write p = false ->
  sqlcipherVfsWrite mem_methods p zBuf iAmt iOfst
    = Ret (fst (mem_write lf zBuf iAmt iOfst),
           set_pReal (with_header hdr (snd (mem_write lf zBuf iAmt iOfst))) p) /\
  sqlcipherVfsTruncate mem_methods p iOfst
    = (fst (mem_truncate lf iOfst),
       set_pReal (with_header hdr (snd (mem_truncate lf iOfst))) p).
Proof.
  intros Hoff Hofs Hnw. split.
  - rewrite write_not_due
      by (unfold header_write_due; rewrite Hnw; apply andb_false_r).
    rewrite logical_shift, add_i64_exact by exact Hofs.
    cbn [xWrite mem_methods]. rewrite Hreal, logical_write_raw by exact Hoff.
    reflexivity.
  - unfold sqlcipherVfsTruncate. rewrite logical_shift, add_i64_exact by exact Hofs.
    cbn [xTruncate mem_methods]. rewrite Hreal, logical_truncate_raw by exact Hoff.
    reflexivity.
Qed.

End LogicalFile.

Lemma header_is_hidden_witness :
  let hdr := layout_of (sample_header (empty_file 64)) in
  let lf := stored_file hundred_bytes 64 in
  let p := active_header (with_header hdr lf) in
  fst (sqlcipherVfsRead mem_methods p 3 98)
    = (SQLITE_IOERR_SHORT_READ, [Byte.x2a; Byte.x2a; Byte.x00]) /\
  fst (sqlcipherVfsFileSize mem_methods p) = (SQLITE_OK, 100).
Proof.
  intros hdr lf p.
  destruct (header_is_hidden hdr lf p eq_refl eq_refl eq_refl 3 98) as [Hrd Hfs].
  - lia.
  - vm_compute. split; [discriminate|reflexivity].
  - vm_compute. split; [discriminate|reflexivity].
  - rewrite Hrd, Hfs. split; reflexivity.
Defined.

Lemma header_is_preserved_witness :
  let hdr := layout_of (sample_header (empty_file 64)) in
  let lf := stored_file hundred_bytes 64 in
  let p := active_header (with_header hdr lf) in
  exists p1 p2,
    sqlcipherVfsWrite mem_methods p three_bytes 3 200 = Ret (SQLITE_OK, p1) /\
    firstn 64 (content (pReal p1)) = hdr /\
    length (content (pReal p1)) = 267%nat /\
    sqlcipherVfsTruncate mem_methods p 0 = (SQLITE_OK, p2) /\
    content (pReal p2) = hdr.
Proof.
  intros hdr lf p.
  destruct (header_is_preserved hdr lf p eq_refl eq_refl eq_refl three_bytes 3 200)
    as [Hw _]; [lia|vm_compute; split; [discriminate|reflexivity]|reflexivity|].
  destruct (header_is_preserved hdr lf p eq_refl eq_refl eq_refl three_bytes 3 0)
    as [_ Ht]; [lia|vm_compute; split; [discriminate|reflexivity]|reflexivity|].
  eexists _, _. split; [exact Hw|]. split; [reflexivity|]. split; [reflexivity|].
  split; [exact Ht|]. reflexivity.
Defined.

(** ** More on registration *)

Lemma find_head (g : sqlite3_global) (v : sqlite3_vfs) (l : list sqlite3_vfs)
  (n : string) :
  vfsList g = v :: l ->
  sqlite3_vfs_find g (Some n)
  = if String.eqb n (zName v) then Some v else find (fun w => String.eqb n (zName w)) l.
Proof. intros H. unfold sqlite3_vfs_find. rewrite H. reflexivity. Qed.

(** X10. A first registration that succeeds puts the shim at the head of
    the provider list: it is the default provider and the one found under
    the shim's name, it opens files through the shim and remembers the root
    provider it was layered over; every other name is found exactly as
    before, and the list stays well-formed. *)
Theorem register_installs_default (sizeof_file : Z) (g g1 : sqlite3_global)
  (zOldVfsName : option string) (pRoot : sqlite3_vfs) :
  registry_wf g ->
  sqlite3_vfs_find g (Some newVfsName) = None ->
  sqlite3_vfs_find g zOldVfsName = Some pRoot ->
  sqlcipherVfs_register sizeof_file g zOldVfsName = (SQLITE_OK, g1) ->
  let shim := shim_vfs sizeof_file (next_addr g) pRoot in
  vfsList g1 = shim :: vfsList g /\
  sqlite3_vfs_find g1 None = Some shim /\
  sqlite3_vfs_find g1 (Some newVfsName) = Some shim /\
  (forall n, n <> newVfsName ->
     sqlite3_vfs_find g1 (Some n) = sqlite3_vfs_find g (Some n)) /\
  xOpen shim = ShimOpen /\
  pAppData shim = Some (vfs_addr pRoot) /\
  szOsFile shim = szOsFile pRoot + sizeof_file /\
  registry_wf g1.
Proof.
  intros Hwf Hshim Hroot Hreg shim.
  unfold sqlcipherVfs_register, sqlite3_malloc in Hreg.
  rewrite Hshim, Hroot in Hreg.
  destruct (malloc_left g) as [|n] eqn:Hml; [discriminate|].
  unfold sqlite3_vfs_register in Hreg.
  cbn [vfsList next_addr malloc_left vfs_addr shim_vfs] in Hreg.
  rewrite (vfsUnlink_fresh (next_addr g) (vfsList g) Hwf) in Hreg.
  assert (Hl : vfsList g1 = shim :: vfsList g).
  { destruct (vfsList g); injection Hreg as <-; reflexivity. }
  assert (Hn : next_addr g1 = S (next_addr g)).
  { destruct (vfsList g); injection Hreg as <-; reflexivity. }
  split; [exact Hl|].
  split; [unfold sqlite3_vfs_find; rewrite Hl; reflexivity|].
  split.
  { rewrite (find_head g1 shim (vfsList g) newVfsName Hl).
    change (zName shim) with newVfsName. rewrite String.eqb_refl. reflexivity. }
  split.
  { intros m Hm. rewrite (find_head g1 shim (vfsList g) m Hl).
    change (zName shim) with newVfsName.
    apply String.eqb_neq in Hm. rewrite Hm. reflexivity. }
  do 3 (split; [reflexivity|]).
  unfold registry_wf. rewrite Hl, Hn. constructor.
  - cbn. lia.
  - eapply Forall_impl; [|exact Hwf]. cbn. intros a Ha. lia.
Qed.

Lemma register_installs_default_witness :
  exists g1,
    sqlcipherVfs_register 96 boot_registry None = (SQLITE_OK, g1) /\
    sqlite3_vfs_find g1 None = Some (shim_vfs 96 2 unix_vfs) /\
    sqlite3_vfs_find g1 (Some "unix"%string) = Some unix_vfs /\
    szOsFile (shim_vfs 96 2 unix_vfs) = 168.
Proof.
  assert (Hwf : registry_wf boot_registry) by (repeat constructor).
  destruct (sqlcipherVfs_register 96 boot_registry None) as [rc g1] eqn:Hreg.
  assert (Hrc : rc = SQLITE_OK) by (vm_compute in Hreg; injection Hreg as <- _; reflexivity).
  subst rc.
  destruct (register_installs_default 96 boot_registry g1 None unix_vfs Hwf
              eq_refl eq_refl Hreg)
    as (_ & Hdef & _ & Hother & _ & _ & Hsz & _).
  exists g1. split; [reflexivity|]. split; [exact Hdef|].
  split; [rewrite Hother by discriminate; reflexivity|]. exact Hsz.
Defined.

Lemma find_some_in (l : list sqlite3_vfs) (n : string) (v : sqlite3_vfs) :
  find (fun w => String.eqb n (zName w)) l = Some v -> In v l /\ zName v = n.
Proof.
  intros H. apply find_some in H. destruct H as [Hin He].
  split; [exact Hin|]. apply String.eqb_eq in He. congruence.
Qed.

Lemma unlink_permutation (v : sqlite3_vfs) (l : list sqlite3_vfs) :
  In v l -> NoDup (map vfs_addr l) ->
  Permutation l (v :: vfsUnlink (vfs_addr v) l).
Proof.
  induction l as [|a l IH]; intros Hin Hnd; [contradiction|].
  cbn [vfsUnlink]. cbn [map] in Hnd. inversion Hnd as [|x xs Hnotin Hnd' E]; subst.
  destruct (Nat.eqb_spec (vfs_addr a) (vfs_addr v)) as [Heq|Hne].
  - destruct Hin as [->|Hin]; [reflexivity|].
    exfalso. apply Hnotin. rewrite Heq. apply in_map. exact Hin.
  - destruct Hin as [->|Hin]; [contradiction|].
    rewrite perm_swap. apply perm_skip. apply IH; assumption.
Qed.

Lemma count_permutation (f : sqlite3_vfs -> bool) (l l' : list sqlite3_vfs) :
  Permutation l l' -> length (filter f l) = length (filter f l').
Proof.
  induction 1 as [|x l l' _ IH|x y l|l l' l'' _ IH1 _ IH2]; cbn.
  - reflexivity.
  - destruct (f x); cbn; congruence.
  - destruct (f x), (f y); reflexivity.
  - congruence.
Qed.

(** X11. When a provider with the shim's name is already registered, at any
    place of a list whose providers are distinct objects, register makes no
    lookup of the given name and no allocation: it returns SQLITE_OK, moves
    that provider to the head of the list, where it is the default, and
    keeps every provider registered, each name as often as before. *)
Theorem register_again_makes_default (sizeof_file : Z) (g : sqlite3_global)
  (zOldVfsName : option string) (pNew : sqlite3_vfs) :
  NoDup (map vfs_addr (vfsList g)) ->
  sqlite3_vfs_find g (Some newVfsName) = Some pNew ->
  exists g',
    sqlcipherVfs_register sizeof_file g zOldVfsName = (SQLITE_OK, g') /\
    vfsList g' = pNew :: vfsUnlink (vfs_addr pNew) (vfsList g) /\
    sqlite3_vfs_find g' None = Some pNew /\
    Permutation (vfsList g) (vfsList g') /\
    (forall n, count_name n g' = count_name n g) /\
    next_addr g' = next_addr g /\ malloc_left g' = malloc_left g.
Proof.
  intros Hnd Hfind.
  destruct (find_some_in _ _ _ Hfind) as [Hin _].
  exists {| vfsList := pNew :: vfsUnlink (vfs_addr pNew) (vfsList g);
            next_addr := next_addr g; malloc_left := malloc_left g |}.
  split.
  { unfold sqlcipherVfs_register. rewrite Hfind. unfold sqlite3_vfs_register.
    destruct (vfsUnlink (vfs_addr pNew) (vfsList g)); reflexivity. }
  split; [reflexivity|]. split; [reflexivity|].
  pose proof (unlink_permutation pNew (vfsList g) Hin Hnd) as Hperm.
  split; [exact Hperm|]. split; [|split; reflexivity].
  intros n. unfold count_name. cbn [vfsList]. symmetry.
  apply count_permutation. exact Hperm.
Qed.

Lemma register_again_makes_default_witness :
  exists g',
    sqlcipherVfs_register 96 demoted_registry (Some "nope"%string) = (SQLITE_OK, g') /\
    vfsList g' = [shim_vfs 96 2 unix_vfs; unix_vfs] /\
    count_name newVfsName g' = 1%nat.
Proof.
  assert (Hnd : NoDup (map vfs_addr (vfsList demoted_registry))).
  { cbn. repeat constructor; cbn; intuition discriminate. }
  destruct (register_again_makes_default 96 demoted_registry (Some "nope"%string)
              (shim_vfs 96 2 unix_vfs) Hnd eq_refl)
    as (g' & Hreg & Hl & _ & _ & Hcnt & _).
  exists g'. split; [exact Hreg|]. split; [rewrite Hl; reflexivity|].
  rewrite Hcnt. reflexivity.
Defined.
